(** * The survey service of backend/server.js

    A shallow embedding of the two server variants that the source file
    holds: the session-token variant (lines 1-251) and the static-secret
    variant (lines 253-451).  Handlers are functions from the in-memory
    database (the module-level [db]) and a request to a reply and the
    database afterwards; an exception leaving a handler is the reply
    [Threw], with the writes made before it kept.

    Conventions.
    - A JS string is a [string] whose characters are code units below 256.
    - Row ids, positions, scores and counts are integers in [Z]; the model
      stays inside the range where a JS number holds an integer exactly.
    - What the JS engine and SQLite decide outside this file (the numeric
      reading of a property key, the comparison of a TEXT parameter with an
      INTEGER column, bcrypt) is a member of the class [Runtime].
    - [saveDb] rewrites the database file from [db]; the file is not part
      of the state. *)

From Stdlib Require Import ZArith List String Ascii Bool Lia.
From Stdlib Require Import Permutation Sorting.Sorted.
From Stdlib Require Import DecimalString DecimalNat.
From stdpp Require Import gmap strings.
Import ListNotations.

Local Open Scope string_scope.
Local Open Scope Z_scope.
#[local] Set Warnings "-register-all".

(** ** JS strings *)

Module JsString.

(** The white space and line terminators of ECMAScript below code unit 256:
    TAB, LF, VT, FF, CR, SP and NBSP. *)
Definition isWhiteSpace (c : ascii) : bool :=
  let n := nat_of_ascii c in
  ((9 <=? n)%nat && (n <=? 13)%nat) || (n =? 32)%nat || (n =? 160)%nat.

Fixpoint trimStart (s : string) : string :=
  match s with
  | EmptyString => EmptyString
  | String c r => if isWhiteSpace c then trimStart r else s
  end.

Definition trimEnd (s : string) : string :=
  String.rev (trimStart (String.rev s)).

(** [s.trim()] *)
Definition trim (s : string) : string := trimEnd (trimStart s).

Fixpoint drop (n : nat) (s : string) : string :=
  match n, s with
  | O, _ => s
  | S n', String _ r => drop n' r
  | S _, EmptyString => EmptyString
  end.

(** [s.startsWith(pat)] *)
Fixpoint startsWith (pat s : string) : bool :=
  match pat, s with
  | EmptyString, _ => true
  | String _ _, EmptyString => false
  | String a pat', String b s' => Ascii.eqb a b && startsWith pat' s'
  end.

(** [s.replace(pat, "")] for a string pattern: the first occurrence of
    [pat], if any, is removed. *)
Fixpoint replace_first (pat s : string) : string :=
  if startsWith pat s then drop (String.length pat) s
  else match s with
       | EmptyString => EmptyString
       | String c r => String c (replace_first pat r)
       end.

End JsString.

(** ** JSON values and the JS operators applied to them *)

(** A number that is not NaN: an integer, or any other value (fractional,
    out of the integer range, infinite) named by its canonical rendering. *)
Inductive numeric :=
| NInt (z : Z)
| NReal (repr : string).

(** A parsed JSON value.  [JObject] lists the own properties of the object
    in the order JS enumerates them. *)
Inductive json :=
| JNull
| JBool (b : bool)
| JNumber (n : numeric)
| JString (s : string)
| JArray (items : list json)
| JObject (props : list (string * json)).

Fixpoint assoc {V : Type} (k : string) (ps : list (string * V)) : option V :=
  match ps with
  | [] => None
  | (k', v) :: rest => if String.eqb k k' then Some v else assoc k rest
  end.

(** [o.k] as read by a destructuring [const { k } = o]; [None] is
    [undefined]. *)
Definition prop (o : json) (k : string) : option json :=
  match o with
  | JObject ps => assoc k ps
  | _ => None
  end.

(** ToBoolean *)
Definition truthy (v : option json) : bool :=
  match v with
  | None => false
  | Some JNull => false
  | Some (JBool b) => b
  | Some (JNumber (NInt 0)) => false
  | Some (JNumber _) => true
  | Some (JString s) => negb (String.eqb s "")
  | Some (JArray _) => true
  | Some (JObject _) => true
  end.

(** [typeof v === "object"] *)
Definition typeof_object (v : option json) : bool :=
  match v with
  | Some JNull | Some (JArray _) | Some (JObject _) => true
  | _ => false
  end.

(** The result of an expression that may throw. *)
Inductive completion (A : Type) :=
| Normal (a : A)
| Abrupt.
Arguments Normal {A} a.
Arguments Abrupt {A}.

(** [v?.trim()]: [undefined] for a nullish [v], the trimmed string for a
    string, and a TypeError for any other value, which has no [trim]. *)
Definition optional_trim (v : option json) : completion (option string) :=
  match v with
  | None => Normal None
  | Some JNull => Normal None
  | Some (JString s) => Normal (Some (JsString.trim s))
  | Some _ => Abrupt
  end.

(** The property key of array index [i] *)
Definition index_key (i : nat) : string :=
  NilZero.string_of_uint (Nat.to_uint i).

Fixpoint indexed (i : nat) (items : list json) : list (string * json) :=
  match items with
  | [] => []
  | v :: rest => (index_key i, v) :: indexed (S i) rest
  end.

(** [Object.entries(v)] of an object or an array *)
Definition Object_entries (v : json) : list (string * json) :=
  match v with
  | JObject ps => ps
  | JArray items => indexed 0 items
  | _ => []
  end.

(** [Object.values(v)] *)
Definition Object_values (v : json) : list json :=
  map snd (Object_entries v).

(** ** Scoring (lines 191-193 and 199; 398-400 and 406) *)

(** [val === "topp" ? 2 : val === "flash" ? 3 : 0] *)
Definition reward (val : json) : Z :=
  match val with
  | JString s => if String.eqb s "topp" then 2
                 else if String.eqb s "flash" then 3 else 0
  | _ => 0
  end.

(** [Object.values(answers).reduce((sum, val) => sum + reward, 0)] *)
Definition score_of (answers : json) : Z :=
  fold_left (fun sum val => sum + reward val) (Object_values answers) 0.

(** [(val === "topp" || val === "flash") ? val : null] *)
Definition safeVal (val : json) : option string :=
  match val with
  | JString s => if String.eqb s "topp" || String.eqb s "flash"
                 then Some s else None
  | _ => None
  end.

(** ** The database *)

Record question := mkQuestion {
  q_id : Z;
  q_text : string;
  q_position : Z;
  q_created_at : string
}.

Record response := mkResponse {
  r_id : Z;
  r_name : string;
  r_score : Z;
  r_submitted_at : string
}.

(** [a_value = None] is SQL NULL. *)
Record answer := mkAnswer {
  a_id : Z;
  a_response_id : Z;
  a_question_id : numeric;
  a_value : option string
}.

(** The four tables, rows in rowid order, and the AUTOINCREMENT counters of
    sqlite_sequence.  [admin] is the row with id 1, if present. *)
Record database := mkDatabase {
  questions : list question;
  responses : list response;
  answers : list answer;
  admin : option string;
  seq_questions : Z;
  seq_responses : Z;
  seq_answers : Z
}.

Definition empty_database : database :=
  mkDatabase [] [] [] None 0 0 0.

(** The rowid AUTOINCREMENT assigns: one more than the largest rowid the
    table has ever held. *)
Definition next_rowid (seq : Z) (ids : list Z) : Z :=
  Z.max seq (fold_right Z.max 0 ids) + 1.

(** [INSERT INTO questions (text, position) VALUES (?, ?)]; returns
    [last_insert_rowid()]. *)
Definition insert_question (text : string) (pos : Z) (now : string)
    (d : database) : Z * database :=
  let id := next_rowid (seq_questions d) (map q_id (questions d)) in
  (id, mkDatabase (questions d ++ [mkQuestion id text pos now])
         (responses d) (answers d) (admin d)
         id (seq_responses d) (seq_answers d)).

(** [INSERT INTO responses (name, score) VALUES (?, ?)] *)
Definition insert_response (name : string) (score : Z) (now : string)
    (d : database) : Z * database :=
  let id := next_rowid (seq_responses d) (map r_id (responses d)) in
  (id, mkDatabase (questions d)
         (responses d ++ [mkResponse id name score now])
         (answers d) (admin d)
         (seq_questions d) id (seq_answers d)).

(** [INSERT INTO answers (response_id, question_id, value) VALUES (?, ?, ?)]
    with a question id that is a number. *)
Definition insert_answer (rid : Z) (qid : numeric) (val : option string)
    (d : database) : database :=
  let id := next_rowid (seq_answers d) (map a_id (answers d)) in
  mkDatabase (questions d) (responses d)
    (answers d ++ [mkAnswer id rid qid val]) (admin d)
    (seq_questions d) (seq_responses d) id.

(** [SELECT COALESCE(MAX(position), 0) as m FROM questions] *)
Definition max_position (qs : list question) : Z :=
  match map q_position qs with
  | [] => 0
  | p :: ps => fold_left Z.max ps p
  end.

(** [ORDER BY]: rows are moved in front of the rows they do not follow, so
    rows that compare equal stay in table order.  SQLite promises no order
    among such rows; [ordered_by] below is the contract it does promise. *)
Fixpoint insert_by {A : Type} (le : A -> A -> bool) (x : A) (l : list A)
    : list A :=
  match l with
  | [] => [x]
  | y :: r => if le x y then x :: l else y :: insert_by le x r
  end.

Definition order_by {A : Type} (le : A -> A -> bool) (rows : list A)
    : list A :=
  fold_right (insert_by le) [] rows.

(** What [SELECT ... ORDER BY] guarantees of its result [out]. *)
Definition ordered_by {A : Type} (le : A -> A -> bool) (rows out : list A)
    : Prop :=
  Permutation rows out /\ StronglySorted (fun a b => le a b = true) out.

(** ** What the platform decides *)

Class Runtime := {
  (** [Number(key)] of a property key, as the column [answers.question_id]
      takes it: [None] is NaN, which SQLite binds as NULL; [NInt z] is an
      integer; [NReal] is any other number. *)
  ToNumber : string -> option numeric;
  (** The key of an array index reads back as that index. *)
  ToNumber_index :
    forall i : nat, ToNumber (index_key i) = Some (NInt (Z.of_nat i));
  (** [column = ?] in SQLite, for an INTEGER column holding [n] and a
      parameter bound as the TEXT [p]. *)
  sql_text_eq_int : string -> Z -> bool;
  (** [bcrypt.compare(password, hash)] *)
  bcrypt_compare : string -> string -> bool
}.

(** ** Requests and replies *)

Inductive endpoint :=
| GET_health
| POST_admin_login
| GET_questions
| GET_leaderboard
| POST_questions
| PUT_question (id : string)
| DELETE_question (id : string)
| POST_responses
| GET_responses
| DELETE_response (id : string)
| GET_analytics.

(** A request, with the two values its handler draws from outside: the
    clock reading [datetime('now')] and the string that
    [Date.now().toString(36) + Math.random().toString(36).substr(2)] makes. *)
Record request := mkRequest {
  route : endpoint;
  authorization : option string;
  body : json;
  now : string;
  minted : string
}.

Record stat := mkStat {
  s_id : Z;
  s_text : string;
  s_yes : Z;
  s_no : Z;
  s_total : Z
}.

(** The JSON bodies the handlers send. *)
Inductive payload :=
| BodyOk                                             (* { ok: true } *)
| BodyError (error : string)                         (* { error } *)
| BodyToken (token : string)                         (* { token } *)
| BodyQuestions (rows : list (Z * string * Z))       (* [{ id, text, position }] *)
| BodyLeaderboard (rows : list (string * Z))         (* [{ name, score }] *)
| BodyQuestion (id : Z) (text : string) (position : Z)
| BodyResponse (id : Z) (score : Z)                  (* { id, score } *)
| BodyResponses (rows : list (response * list (numeric * option string)))
| BodyAnalytics (stats : list stat) (totalResponses : Z).

(** [Json status body] is [res.status(status).json(body)].  [Threw] is an
    exception that left the handler: the handler sends no reply of its own,
    and Express answers a synchronous throw with status 500.  [NotFound] is
    a request that no registered route matches, which Express answers with
    status 404. *)
Inductive reply :=
| Json (status : nat) (body : payload)
| Threw
| NotFound.

(** ** Route handlers, the same text in both variants *)

Section Handlers.
Context `{Runtime}.

(** [SELECT COUNT( * ) as n FROM t WHERE p] *)
Definition count {A : Type} (p : A -> bool) (rows : list A) : Z :=
  Z.of_nat (List.length (List.filter p rows)).

(** [question_id = ?] with the number [id] bound *)
Definition question_is (id : Z) (a : answer) : bool :=
  match a_question_id a with
  | NInt z => z =? id
  | NReal _ => false
  end.

(** [value = tok] *)
Definition value_is (tok : string) (a : answer) : bool :=
  match a_value a with
  | Some v => String.eqb v tok
  | None => false
  end.

(** [value IS NOT NULL] *)
Definition value_not_null (a : answer) : bool :=
  match a_value a with
  | Some _ => true
  | None => false
  end.

Definition view (q : question) : Z * string * Z :=
  (q_id q, q_text q, q_position q).

Definition by_position (a b : question) : bool :=
  q_position a <=? q_position b.

Definition by_score_desc (a b : response) : bool :=
  r_score b <=? r_score a.

Definition by_submitted_desc (a b : response) : bool :=
  String.leb (r_submitted_at b) (r_submitted_at a).

(** GET /api/questions (lines 153-155, 366-368) *)
Definition get_questions (d : database) : reply * database :=
  (Json 200 (BodyQuestions (map view (order_by by_position (questions d)))),
   d).

(** [SELECT name, score FROM responses ORDER BY score DESC LIMIT 5] *)
Definition top5 (d : database) : list (string * Z) :=
  map (fun r => (r_name r, r_score r))
      (firstn 5 (order_by by_score_desc (responses d))).

(** GET /api/leaderboard (lines 158-161) *)
Definition get_leaderboard (d : database) : reply * database :=
  (Json 200 (BodyLeaderboard (top5 d)), d).

(** POST /api/questions (lines 164-171, 371-378) *)
Definition post_question (req : request) (d : database) : reply * database :=
  match optional_trim (prop (body req) "text") with
  | Abrupt => (Threw, d)
  | Normal None => (Json 400 (BodyError "text is required"), d)
  | Normal (Some text) =>
      if String.eqb text "" then (Json 400 (BodyError "text is required"), d)
      else
        let pos := max_position (questions d) + 1 in
        let (id, d') := insert_question text pos (now req) d in
        (Json 200 (BodyQuestion id text pos), d')
  end.

(** [UPDATE questions SET text = ? WHERE id = ?] *)
Definition update_question_text (text id : string) (d : database) : database :=
  mkDatabase
    (map (fun q => if sql_text_eq_int id (q_id q)
                   then mkQuestion (q_id q) text (q_position q) (q_created_at q)
                   else q)
         (questions d))
    (responses d) (answers d) (admin d)
    (seq_questions d) (seq_responses d) (seq_answers d).

(** PUT /api/questions/:id (lines 173-178, 380-385) *)
Definition put_question (id : string) (req : request) (d : database)
    : reply * database :=
  match optional_trim (prop (body req) "text") with
  | Abrupt => (Threw, d)
  | Normal None => (Json 400 (BodyError "text is required"), d)
  | Normal (Some text) =>
      if String.eqb text "" then (Json 400 (BodyError "text is required"), d)
      else (Json 200 BodyOk, update_question_text text id d)
  end.

(** [DELETE FROM questions WHERE id = ?] *)
Definition delete_question_rows (id : string) (d : database) : database :=
  mkDatabase
    (List.filter (fun q => negb (sql_text_eq_int id (q_id q))) (questions d))
    (responses d) (answers d) (admin d)
    (seq_questions d) (seq_responses d) (seq_answers d).

(** DELETE /api/questions/:id (lines 180-183, 387-390) *)
Definition delete_question (id : string) (d : database) : reply * database :=
  (Json 200 BodyOk, delete_question_rows id d).

(** The loop of lines 198-202 (405-409).  A key that [Number] reads as NaN
    is bound as NULL, the NOT NULL constraint of [answers.question_id]
    rejects the row and [db.run] throws; the rows written so far stay. *)
Fixpoint insert_answers (responseId : Z) (entries : list (string * json))
    (d : database) : completion unit * database :=
  match entries with
  | [] => (Normal tt, d)
  | (qid, val) :: rest =>
      match ToNumber qid with
      | None => (Abrupt, d)
      | Some n =>
          insert_answers responseId rest
            (insert_answer responseId n (safeVal val) d)
      end
  end.

(** POST /api/responses (lines 186-206, 393-413) *)
Definition post_response (req : request) (d : database) : reply * database :=
  match optional_trim (prop (body req) "name") with
  | Abrupt => (Threw, d)
  | Normal None => (Json 400 (BodyError "name is required"), d)
  | Normal (Some name) =>
      if String.eqb name "" then (Json 400 (BodyError "name is required"), d)
      else
        let answers := prop (body req) "answers" in
        if negb (truthy answers) || negb (typeof_object answers)
        then (Json 400 (BodyError "answers is required"), d)
        else
          let ans := match answers with Some v => v | None => JNull end in
          let score := score_of ans in
          let (responseId, d1) := insert_response name score (now req) d in
          match insert_answers responseId (Object_entries ans) d1 with
          | (Abrupt, d2) => (Threw, d2)
          | (Normal _, d2) => (Json 200 (BodyResponse responseId score), d2)
          end
  end.

Definition numeric_eqb (a b : numeric) : bool :=
  match a, b with
  | NInt x, NInt y => x =? y
  | NReal x, NReal y => String.eqb x y
  | _, _ => false
  end.

(** [m[k] = v] on an object whose keys are question ids; the order of the
    properties is not modelled beyond "a new key comes last". *)
Fixpoint set_key (k : numeric) (v : option string)
    (m : list (numeric * option string)) : list (numeric * option string) :=
  match m with
  | [] => [(k, v)]
  | (k', v') :: rest =>
      if numeric_eqb k k' then (k, v) :: rest else (k', v') :: set_key k v rest
  end.

(** [answerMap[id] || {}] after the loop of lines 214-217 *)
Definition answers_of (id : Z) (rows : list answer)
    : list (numeric * option string) :=
  fold_left (fun m a => if a_response_id a =? id
                        then set_key (a_question_id a) (a_value a) m else m)
            rows [].

(** GET /api/responses (lines 209-220, 416-427) *)
Definition get_responses (d : database) : reply * database :=
  (Json 200
     (BodyResponses
        (map (fun r => (r, answers_of (r_id r) (answers d)))
             (order_by by_submitted_desc (responses d)))),
   d).

(** [DELETE FROM answers WHERE response_id = ?] *)
Definition delete_answers_of (id : string) (d : database) : database :=
  mkDatabase (questions d) (responses d)
    (List.filter (fun a => negb (sql_text_eq_int id (a_response_id a)))
                 (answers d))
    (admin d) (seq_questions d) (seq_responses d) (seq_answers d).

(** [DELETE FROM responses WHERE id = ?] *)
Definition delete_response_row (id : string) (d : database) : database :=
  mkDatabase (questions d)
    (List.filter (fun r => negb (sql_text_eq_int id (r_id r))) (responses d))
    (answers d)
    (admin d) (seq_questions d) (seq_responses d) (seq_answers d).

(** DELETE /api/responses/:id (lines 223-227) *)
Definition delete_response (id : string) (d : database) : reply * database :=
  (Json 200 BodyOk, delete_response_row id (delete_answers_of id d)).

(** The per-question record of lines 232-237 (432-437) *)
Definition stat_of (d : database) (q : question) : stat :=
  mkStat (q_id q) (q_text q)
    (count (fun a => question_is (q_id q) a && value_is "topp" a) (answers d))
    (count (fun a => question_is (q_id q) a && value_is "flash" a) (answers d))
    (count (fun a => question_is (q_id q) a && value_not_null a) (answers d)).

(** GET /api/analytics (lines 230-240, 430-440) *)
Definition get_analytics (d : database) : reply * database :=
  (Json 200
     (BodyAnalytics
        (map (stat_of d) (order_by by_position (questions d)))
        (count (fun _ => true) (responses d))),
   d).

(** Seeding of the default questions (lines 114-125, 348-359) *)
Definition defaults : list string :=
  [ "Route 1: Red Wall"; "Route 2: Blue Corner"; "Route 3: Yellow Overhang";
    "Route 4: Green Slab"; "Route 5: Black Crack" ].

Fixpoint seed_from (i : Z) (texts : list string) (now : string) (d : database)
    : database :=
  match texts with
  | [] => d
  | text :: rest =>
      seed_from (i + 1) rest now (snd (insert_question text i now d))
  end.

Definition seed_questions (now : string) (d : database) : database :=
  if count (fun _ => true) (questions d) =? 0
  then seed_from 0 defaults now d else d.

End Handlers.

(** ** The session-token variant (lines 1-251) *)

Module SessionVariant.
Section Server.
Context `{Runtime}.

(** The module-level state: [db] and [activeSessions]. *)
Record server := mkServer {
  db : database;
  activeSessions : gset string
}.

(** [requireAdmin] (lines 24-28): [true] when [next()] is called. *)
Definition requireAdmin (s : server) (req : request) : bool :=
  match authorization req with
  | None => false
  | Some header =>
      let token := JsString.replace_first "Bearer " header in
      negb (String.eqb token "") && bool_decide (token ∈ activeSessions s)
  end.

Definition unauthorized : reply := Json 401 (BodyError "Unauthorized").

Definition with_db (s : server) (r : reply * database) : reply * server :=
  (fst r, mkServer (snd r) (activeSessions s)).

(** A route registered with [requireAdmin] in front of its handler *)
Definition guarded (s : server) (req : request)
    (handler : database -> reply * database) : reply * server :=
  if requireAdmin s req then with_db s (handler (db s))
  else (unauthorized, s).

(** POST /api/admin/login (lines 132-150).  A password that is neither
    falsy nor a string makes [bcrypt.compare] fail. *)
Definition login (s : server) (req : request) : reply * server :=
  let password := prop (body req) "password" in
  if negb (truthy password)
  then (Json 400 (BodyError "Password required"), s)
  else
    match admin (db s) with
    | None => (Json 500 (BodyError "Admin not configured"), s)
    | Some password_hash =>
        match password with
        | Some (JString p) =>
            if bcrypt_compare p password_hash
            then (Json 200 (BodyToken (minted req)),
                  mkServer (db s) ({[ minted req ]} ∪ activeSessions s))
            else (Json 401 (BodyError "Invalid password"), s)
        | _ => (Threw, s)
        end
    end.

(** The timer of line 147, when it fires *)
Definition expire (token : string) (s : server) : server :=
  mkServer (db s) (activeSessions s ∖ {[ token ]}).

(** The routes of lines 129-240 *)
Definition handle (s : server) (req : request) : reply * server :=
  match route req with
  | GET_health => (Json 200 BodyOk, s)
  | POST_admin_login => login s req
  | GET_questions => with_db s (get_questions (db s))
  | GET_leaderboard => with_db s (get_leaderboard (db s))
  | POST_questions => guarded s req (post_question req)
  | PUT_question id => guarded s req (put_question id req)
  | DELETE_question id => guarded s req (delete_question id)
  | POST_responses => with_db s (post_response req (db s))
  | GET_responses => guarded s req get_responses
  | DELETE_response id => guarded s req (delete_response id)
  | GET_analytics => guarded s req get_analytics
  end.

(** [start] up to the routes (lines 67-125): [file] is the database read
    from [DB_PATH] if the file exists, [hash] the result of [bcrypt.hash]. *)
Definition start (file : option database) (hash now : string) : server :=
  let d0 := match file with Some d => d | None => empty_database end in
  let d1 := match admin d0 with
            | Some _ => d0
            | None => mkDatabase (questions d0) (responses d0) (answers d0)
                        (Some hash)
                        (seq_questions d0) (seq_responses d0) (seq_answers d0)
            end in
  mkServer (seed_questions now d1) ∅.

End Server.
End SessionVariant.

(** ** The static-secret variant (lines 253-451) *)

Module StaticVariant.
Section Server.
Context `{Runtime}.

(** [process.env.ADMIN_PASSWORD || "admin123"] (line 272) *)
Definition ADMIN_PASSWORD (env : option string) : string :=
  match env with
  | Some p => if String.eqb p "" then "admin123" else p
  | None => "admin123"
  end.

(** [requireAdmin] (lines 274-277) *)
Definition requireAdmin (password : string) (req : request) : bool :=
  match authorization req with
  | None => false
  | Some header => String.eqb header ("Bearer " ++ password)
  end.

Definition unauthorized : reply := Json 401 (BodyError "Unauthorized").

Definition guarded (password : string) (d : database) (req : request)
    (handler : database -> reply * database) : reply * database :=
  if requireAdmin password req then handler d else (unauthorized, d).

(** The routes of lines 363-440.  This variant registers no login, no
    leaderboard and no response deletion. *)
Definition handle (password : string) (d : database) (req : request)
    : reply * database :=
  match route req with
  | GET_health => (Json 200 BodyOk, d)
  | GET_questions => get_questions d
  | POST_questions => guarded password d req (post_question req)
  | PUT_question id => guarded password d req (put_question id req)
  | DELETE_question id => guarded password d req (delete_question id)
  | POST_responses => post_response req d
  | GET_responses => guarded password d req get_responses
  | GET_analytics => guarded password d req get_analytics
  | POST_admin_login | GET_leaderboard | DELETE_response _ => (NotFound, d)
  end.

(** [start] up to the routes (lines 316-359) *)
Definition start (file : option database) (now : string) : database :=
  seed_questions now
    (match file with Some d => d | None => empty_database end).

End Server.
End StaticVariant.

(** ** States the service can reach *)

Section Reachability.
Context `{Runtime}.

(** One operation of either variant on the database: a request handled, or
    a restart on the database file. *)
Inductive operation : database -> database -> Prop :=
| op_session (s : SessionVariant.server) (req : request) :
    operation (SessionVariant.db s)
              (SessionVariant.db (snd (SessionVariant.handle s req)))
| op_static (password : string) (d : database) (req : request) :
    operation d (snd (StaticVariant.handle password d req))
| op_session_start (d : database) (hash now : string) :
    operation d (SessionVariant.db (SessionVariant.start (Some d) hash now))
| op_static_start (d : database) (now : string) :
    operation d (StaticVariant.start (Some d) now).

Inductive reachable : database -> Prop :=
| reachable_empty : reachable empty_database
| reachable_step (d d' : database) :
    reachable d -> operation d d' -> reachable d'.

End Reachability.

(** ** A runtime for closed examples

    It reads a key made of decimal digits as that integer and every other
    key as NaN, compares a TEXT parameter with an integer through the same
    reading, and accepts the password whose hash is the password prefixed
    by "hash:".  On the keys used in the examples of this file (digit
    strings and "abc") this is what [Number] and SQLite do. *)

Module Sample.

Definition decimal (s : string) : option Z :=
  match NilZero.uint_of_string s with
  | Some d => Some (Z.of_nat (Nat.of_uint d))
  | None => None
  end.

Definition number (s : string) : option numeric :=
  match decimal s with
  | Some z => Some (NInt z)
  | None => None
  end.

Definition text_eq_int (p : string) (n : Z) : bool :=
  match decimal p with
  | Some z => z =? n
  | None => false
  end.

Definition runtime : Runtime.
Proof.
  refine {| ToNumber := number;
            sql_text_eq_int := text_eq_int;
            bcrypt_compare :=
              fun password hash => String.eqb ("hash:" ++ password) hash |}.
  intros i. unfold number, decimal, index_key.
  rewrite NilZero.usu.
  - now rewrite Unsigned.of_to.
  - rewrite <- (Unsigned.of_to i) at 1. rewrite Unsigned.to_of.
    unfold Decimal.unorm.
    destruct (Decimal.nzhead (Nat.to_uint i)); discriminate.
Defined.

End Sample.

(** ** The vocabulary of the properties *)

(** The reward table: 2 for the first accepted token, 3 for the second,
    0 for every other value. *)
Inductive awards : json -> Z -> Prop :=
| awards_topp : awards (JString "topp") 2
| awards_flash : awards (JString "flash") 3
| awards_other (v : json) :
    v <> JString "topp" -> v <> JString "flash" -> awards v 0.

Definition sum (l : list Z) : Z := fold_right Z.add 0 l.

(** A stored answer value is an accepted token or NULL. *)
Definition closed_value (a : answer) : Prop :=
  a_value a = Some "topp" \/ a_value a = Some "flash" \/ a_value a = None.

(** The name check of line 188 (395) lets the request through with the
    trimmed name [name]. *)
Definition name_accepted (req : request) (name : string) : Prop :=
  exists raw, prop (body req) "name" = Some (JString raw) /\
              name = JsString.trim raw /\ name <> "".

(** The name is missing (absent or null) or a string of white space only. *)
Definition name_missing (req : request) : Prop :=
  prop (body req) "name" = None \/ prop (body req) "name" = Some JNull \/
  exists raw, prop (body req) "name" = Some (JString raw) /\
              JsString.trim raw = "".

(** The answers field is a non-null value of object type. *)
Definition answers_object (req : request) (ans : json) : Prop :=
  prop (body req) "answers" = Some ans /\
  ((exists props, ans = JObject props) \/ (exists items, ans = JArray items)).

(** The answers field is missing, null, or not of object type. *)
Definition answers_rejected (req : request) : Prop :=
  forall ans, ~ answers_object req ans.

(** The text check of lines 166 and 175 lets the request through. *)
Definition text_accepted (req : request) (text : string) : Prop :=
  exists raw, prop (body req) "text" = Some (JString raw) /\
              text = JsString.trim raw /\ text <> "".

(** The answer row that one submitted entry becomes *)
Definition row_of `{Runtime} (responseId : Z) (entry : string * json)
    (a : answer) : Prop :=
  a_response_id a = responseId /\
  ToNumber (fst entry) = Some (a_question_id a) /\
  a_value a = safeVal (snd entry).

(** [m] is the largest of [l], or 0 when [l] is empty. *)
Definition max_or_zero (l : list Z) (m : Z) : Prop :=
  (l = [] /\ m = 0) \/ (In m l /\ Forall (fun p => p <= m) l).

(** Every stored answer value is an accepted token or NULL. *)
Definition all_closed (d : database) : Prop := Forall closed_value (answers d).

(** The credential the session gate accepts: an Authorization header that,
    with its first "Bearer " removed, is a non-empty member of the set of
    active sessions. *)
Definition session_credential (s : SessionVariant.server) (req : request)
    : Prop :=
  exists header,
    authorization req = Some header /\
    JsString.replace_first "Bearer " header <> "" /\
    JsString.replace_first "Bearer " header ∈ SessionVariant.activeSessions s.

(** The credential the static gate accepts: the header "Bearer " followed
    by the configured password. *)
Definition static_credential (password : string) (req : request) : Prop :=
  authorization req = Some ("Bearer " ++ password).

(** Question create, update and delete, response reads, response deletes
    and analytics reads *)
Definition protected (e : endpoint) : Prop :=
  match e with
  | POST_questions | PUT_question _ | DELETE_question _
  | GET_responses | DELETE_response _ | GET_analytics => True
  | _ => False
  end.

Definition response_delete (e : endpoint) : Prop :=
  match e with
  | DELETE_response _ => True
  | _ => False
  end.

(** Question reads, the health check and response submission *)
Definition public (e : endpoint) : Prop :=
  match e with
  | GET_health | GET_questions | POST_responses => True
  | _ => False
  end.

Definition with_authorization (header : option string) (req : request)
    : request :=
  mkRequest (route req) header (body req) (now req) (minted req).

#[local] Instance numeric_eq_dec : EqDecision numeric.
Proof. solve_decision. Defined.

(** The number of rows that satisfy [P] *)
Definition tally (P : answer -> Prop) `{forall a, Decision (P a)}
    (rows : list answer) : Z :=
  Z.of_nat (List.length (filter P rows)).

Definition entry (r : response) : string * Z := (r_name r, r_score r).

(** ** Inputs of the closed examples *)

Module SampleInputs.

Definition three_answers : json :=
  JObject [("1", JString "topp"); ("2", JString "flash");
           ("3", JString "bogus")].

Definition submission : request :=
  mkRequest POST_responses None
    (JObject [("name", JString " Ann "); ("answers", three_answers)])
    "2024-05-01 10:00:00" "".

End SampleInputs.

Module SampleSubmissions.

Definition at_ten : string := "2024-05-01 10:00:00".

(** { name: "  ", answers: {} } *)
Definition blank_name : request :=
  mkRequest POST_responses None
    (JObject [("name", JString "  "); ("answers", JObject [])]) at_ten "".

(** { name: "Ann", answers: "topp" } *)
Definition string_answers : request :=
  mkRequest POST_responses None
    (JObject [("name", JString "Ann"); ("answers", JString "topp")])
    at_ten "".

(** { name: 5 } *)
Definition number_name : request :=
  mkRequest POST_responses None
    (JObject [("name", JNumber (NInt 5))]) at_ten "".

(** { name: "Ann", answers: { abc: "topp" } } *)
Definition word_key : request :=
  mkRequest POST_responses None
    (JObject [("name", JString "Ann");
              ("answers", JObject [("abc", JString "topp")])]) at_ten "".

(** { name: "Ann", answers: ["topp", "nope", "flash"] } *)
Definition array_answers : request :=
  mkRequest POST_responses None
    (JObject [("name", JString "Ann");
              ("answers",
               JArray [JString "topp"; JString "nope"; JString "flash"])])
    at_ten "".

End SampleSubmissions.

Module SampleAuth.

(** DELETE /api/responses/7 with no Authorization header *)
Definition delete_7 : request :=
  mkRequest (DELETE_response "7") None (JObject []) "2024-05-01 10:00:00" "".

(** POST /api/questions with the header "k3y", which names no scheme *)
Definition bare_token : request :=
  mkRequest POST_questions (Some "k3y")
    (JObject [("text", JString "Route 6")]) "2024-05-01 10:00:00" "".

(** A server on which the session "k3y" is active *)
Definition logged_in : SessionVariant.server :=
  SessionVariant.mkServer empty_database {[ "k3y" ]}.

(** POST /api/questions with the header "Bearer k3y" *)
Definition bearer_token : request :=
  with_authorization (Some "Bearer k3y") bare_token.

(** GET /api/analytics with no Authorization header *)
Definition anonymous_analytics : request :=
  mkRequest GET_analytics None (JObject []) "2024-05-01 10:00:00" "".

End SampleAuth.

Module SampleAdmin.

Definition at_noon : string := "2024-05-01 12:00:00".

(** Two questions and two responses, each with an answer to question 2 *)
Definition stocked : database :=
  mkDatabase
    [mkQuestion 1 "Route 1: Red Wall" 0 at_noon;
     mkQuestion 2 "Route 2: Blue Corner" 4 at_noon]
    [mkResponse 1 "Ann" 2 at_noon; mkResponse 2 "Bob" 3 at_noon]
    [mkAnswer 1 1 (NInt 2) (Some "topp"); mkAnswer 2 2 (NInt 2) (Some "flash")]
    None 2 2 2.

Definition server : SessionVariant.server :=
  SessionVariant.mkServer stocked {[ "k3y" ]}.

Definition admin_request (e : endpoint) (body : json) : request :=
  mkRequest e (Some "Bearer k3y") body at_noon "".

(** The same request as the static variant wants it *)
Definition static_request (e : endpoint) (body : json) : request :=
  mkRequest e (Some "Bearer admin123") body at_noon "".

Definition new_text : json := JObject [("text", JString " Route 6 ")].

End SampleAdmin.

Module SampleBoard.

Definition at_noon : string := "2024-05-01 12:00:00".

(** Seven responses with the scores 2, 9, 4, 9, 0, 7 and 5 *)
Definition seven : database :=
  mkDatabase []
    [mkResponse 1 "a" 2 at_noon; mkResponse 2 "b" 9 at_noon;
     mkResponse 3 "c" 4 at_noon; mkResponse 4 "d" 9 at_noon;
     mkResponse 5 "e" 0 at_noon; mkResponse 6 "f" 7 at_noon;
     mkResponse 7 "g" 5 at_noon]
    [] None 0 7 0.

End SampleBoard.

(** ** Further vocabulary: the service over time *)


(** The request carries the header "Bearer " followed by [token]. *)
Definition bears (token : string) (req : request) : Prop :=
  authorization req = Some ("Bearer " ++ token).

(** The password field is absent or falsy: null, false, 0 or "". *)
Definition password_missing (req : request) : Prop :=
  truthy (prop (body req) "password") = false.

(** The password field is the non-empty string [p]. *)
Definition password_given (req : request) (p : string) : Prop :=
  prop (body req) "password" = Some (JString p) /\ p <> "".

(** The text field is absent, null or a string of white space only. *)
Definition text_missing (req : request) : Prop :=
  prop (body req) "text" = None \/ prop (body req) "text" = Some JNull \/
  exists raw, prop (body req) "text" = Some (JString raw) /\
              JsString.trim raw = "".

(** The text field is a value without [trim]: a boolean, a number, an
    array or an object. *)
Definition text_not_string (req : request) : Prop :=
  exists v, prop (body req) "text" = Some v /\ v <> JNull /\
            forall raw, v <> JString raw.

(** The routes whose handler writes to the database *)
Definition writes (e : endpoint) : Prop :=
  match e with
  | POST_questions | PUT_question _ | DELETE_question _
  | POST_responses | DELETE_response _ => True
  | _ => False
  end.

Module SampleSessions.

Definition at_nine : string := "2024-05-01 09:00:00".

(** A freshly booted server whose admin hash is that of "s3cret" *)
Definition booted : SessionVariant.server :=
  SessionVariant.start None "hash:s3cret" at_nine.

(** POST /api/admin/login { password: "s3cret" }, minting "t0k3n" *)
Definition good_login : request :=
  mkRequest POST_admin_login None
    (JObject [("password", JString "s3cret")]) at_nine "t0k3n".


(** POST /api/admin/login {} *)
Definition empty_login : request :=
  mkRequest POST_admin_login None (JObject []) at_nine "t2".

(** GET /api/responses with the header "Bearer t0k3n" *)
Definition list_responses : request :=
  mkRequest GET_responses (Some "Bearer t0k3n") (JObject []) at_nine "".

(** DELETE /api/questions/1 with no header *)
Definition anonymous_delete : request :=
  mkRequest (DELETE_question "1") None (JObject []) at_nine "".

(** POST /api/questions { text: 7 } and { text: "  " }, authorized on
    [SampleAdmin.server] *)
Definition number_text : request :=
  SampleAdmin.admin_request POST_questions
    (JObject [("text", JNumber (NInt 7))]).

Definition blank_text : request :=
  SampleAdmin.admin_request (PUT_question "1")
    (JObject [("text", JString "  ")]).

End SampleSessions.

(** ** Further vocabulary: what the stored rows always satisfy *)

Section Changes.
Context `{Runtime}.

(** [INSERT INTO admin (id, password_hash) VALUES (1, ?)] (line 108) *)
Definition insert_admin (hash : string) (d : database) : database :=
  mkDatabase (questions d) (responses d) (answers d) (Some hash)
    (seq_questions d) (seq_responses d) (seq_answers d).

(** The changes that the handlers and [start] make to the database, with
    what the code has established when it makes them: a question is
    inserted with a non-empty text at a position above all others, a text
    is replaced by a non-empty one, a response is inserted with a non-empty
    name and a score that is not negative, an answer is inserted for a
    response that is stored, and a response is deleted after its answers. *)
Inductive change : database -> database -> Prop :=
| insert_question_change (text : string) (pos : Z) (now : string)
    (d : database) :
    text <> "" ->
    Forall (fun p => p < pos) (map q_position (questions d)) ->
    (questions d = [] -> 0 <= pos) ->
    change d (snd (insert_question text pos now d))
| update_question_change (text id : string) (d : database) :
    text <> "" -> change d (update_question_text text id d)
| delete_question_change (id : string) (d : database) :
    change d (delete_question_rows id d)
| insert_response_change (name : string) (score : Z) (now : string)
    (d : database) :
    name <> "" -> 0 <= score ->
    change d (snd (insert_response name score now d))
| insert_answer_change (responseId : Z) (qid : numeric)
    (val : option string) (d : database) :
    In responseId (map r_id (responses d)) ->
    change d (insert_answer responseId qid val d)
| delete_response_change (id : string) (d : database) :
    change d (delete_response_row id (delete_answers_of id d))
| insert_admin_change (hash : string) (d : database) :
    change d (insert_admin hash d).

Inductive changes : database -> database -> Prop :=
| changes_none (d : database) : changes d d
| changes_then (d d1 d2 : database) :
    change d d1 -> changes d1 d2 -> changes d d2.

End Changes.

(** Row ids are pairwise distinct in each table and none exceeds the
    AUTOINCREMENT counter of its table. *)
Definition ids_issued_once (d : database) : Prop :=
  (List.NoDup (map q_id (questions d)) /\
   Forall (fun i => i <= seq_questions d) (map q_id (questions d))) /\
  (List.NoDup (map r_id (responses d)) /\
   Forall (fun i => i <= seq_responses d) (map r_id (responses d))) /\
  (List.NoDup (map a_id (answers d)) /\
   Forall (fun i => i <= seq_answers d) (map a_id (answers d))).

(** Every answer row belongs to a stored response. *)
Definition answers_owned (d : database) : Prop :=
  Forall (fun a => exists r, In r (responses d) /\ r_id r = a_response_id a)
    (answers d).

(** Question texts are not empty; positions are not negative and pairwise
    distinct. *)
Definition questions_sound (d : database) : Prop :=
  Forall (fun q => q_text q <> "" /\ 0 <= q_position q) (questions d) /\
  List.NoDup (map q_position (questions d)).

(** Response names are not empty and scores are not negative. *)
Definition responses_sound (d : database) : Prop :=
  Forall (fun r => r_name r <> "" /\ 0 <= r_score r) (responses d).

(** The submitted entry answers question [id] with the token [tok]. *)
Definition entry_gives `{Runtime} (id : Z) (tok : string)
    (e : string * json) : bool :=
  match ToNumber (fst e), snd e with
  | Some (NInt z), JString s => (z =? id) && String.eqb s tok
  | _, _ => false
  end.

(** The number of submitted entries that answer [id] with [tok] *)
Definition given `{Runtime} (id : Z) (tok : string) (ans : json) : Z :=
  Z.of_nat (List.length (List.filter (entry_gives id tok)
                           (Object_entries ans))).

(** [a] is the last row of [rows] for response [id] and question [k]. *)
Definition last_row (id : Z) (k : numeric) (a : answer)
    (rows : list answer) : Prop :=
  exists before after,
    rows = (before ++ a :: after)%list /\
    a_response_id a = id /\ a_question_id a = k /\
    Forall (fun b => ~ (a_response_id b = id /\ a_question_id b = k)) after.

Module SampleStates.

(** The database after a first boot and the submission of
    [SampleInputs.submission] under the static variant *)
Definition after_submission : database :=
  snd (@StaticVariant.handle Sample.runtime "admin123"
         (StaticVariant.start None "2024-05-01 09:00:00")
         SampleInputs.submission).

End SampleStates.

(** ** The JS operators on small inputs *)

Example trim_inner_space_kept : JsString.trim "  Route 6  " = "Route 6".
Proof. reflexivity. Qed.

Example trim_white_space_only : JsString.trim "   " = "".
Proof. reflexivity. Qed.

Example replace_first_prefix :
  JsString.replace_first "Bearer " "Bearer k3y" = "k3y".
Proof. reflexivity. Qed.

Example replace_first_inside :
  JsString.replace_first "Bearer " "k3Bearer yBearer z" = "k3yBearer z".
Proof. reflexivity. Qed.

Example replace_first_absent : JsString.replace_first "Bearer " "k3y" = "k3y".
Proof. reflexivity. Qed.

Example entries_of_array :
  Object_entries (JArray [JString "topp"; JNull])
  = [("0", JString "topp"); ("1", JNull)].
Proof. reflexivity. Qed.

Example score_of_mixed :
  score_of (JObject [("7", JString "flash"); ("x", JString "Topp");
                     ("9", JNumber (NInt 2)); ("2", JString "topp")]) = 5.
Proof. reflexivity. Qed.

Example next_rowid_after_delete : next_rowid 7 [1; 2; 3] = 8.
Proof. reflexivity. Qed.

Example analytics_of_stocked :
  get_analytics SampleAdmin.stocked
  = (Json 200
       (BodyAnalytics
          [mkStat 1 "Route 1: Red Wall" 0 0 0;
           mkStat 2 "Route 2: Blue Corner" 1 1 2] 2),
     SampleAdmin.stocked).
Proof. reflexivity. Qed.

Example leaderboard_of_seven :
  top5 SampleBoard.seven = [("b", 9); ("d", 9); ("f", 7); ("g", 5); ("c", 4)].
Proof. reflexivity. Qed.

(** ** Scoring and the submission handler *)

Lemma awards_reward (v : json) : awards v (reward v).
Proof.
  destruct v as [ | b | n | s | items | props ];
    try (apply awards_other; discriminate).
  unfold reward.
  destruct (String.eqb_spec s "topp") as [-> | Htopp]; [constructor | ].
  destruct (String.eqb_spec s "flash") as [-> | Hflash]; [constructor | ].
  apply awards_other; congruence.
Qed.

Lemma awards_functional (v : json) (p q : Z) : awards v p -> awards v q -> p = q.
Proof.
  intros Hp Hq.
  destruct Hp; inversion Hq; subst; try reflexivity; congruence.
Qed.

Lemma fold_reward_acc (vals : list json) (acc : Z) :
  fold_left (fun sum val => sum + reward val) vals acc
  = acc + sum (map reward vals).
Proof.
  revert acc. induction vals as [ | v vals IH ]; intros acc; simpl.
  - lia.
  - rewrite IH. lia.
Qed.

Lemma score_of_sum (ans : json) :
  score_of ans = sum (map reward (Object_values ans)).
Proof. unfold score_of. rewrite fold_reward_acc. lia. Qed.

Lemma score_of_awards (ans : json) :
  exists points, Forall2 awards (Object_values ans) points /\
                 score_of ans = sum points.
Proof.
  exists (map reward (Object_values ans)). split.
  - induction (Object_values ans); simpl; constructor;
      auto using awards_reward.
  - apply score_of_sum.
Qed.

Lemma safeVal_closed (val : json) :
  safeVal val = Some "topp" \/ safeVal val = Some "flash" \/ safeVal val = None.
Proof.
  destruct val as [ | b | n | s | items | props ]; simpl; auto.
  destruct (String.eqb_spec s "topp") as [-> | Htopp]; simpl; auto.
  destruct (String.eqb_spec s "flash") as [-> | Hflash]; simpl; auto.
Qed.

Lemma safeVal_other (val : json) :
  val <> JString "topp" -> val <> JString "flash" -> safeVal val = None.
Proof.
  intros Htopp Hflash.
  destruct val as [ | b | n | s | items | props ]; simpl; auto.
  destruct (String.eqb_spec s "topp") as [-> | _]; [congruence | ].
  destruct (String.eqb_spec s "flash") as [-> | _]; [congruence | ].
  reflexivity.
Qed.

Section Submission.
Context `{Runtime}.

(** What the loop over the entries leaves behind: the other tables are
    untouched, and the new answer rows are those of the entries before the
    first key that is not a number, or of all entries if there is none. *)
Lemma insert_answers_spec (responseId : Z) (entries : list (string * json))
    (d : database) :
  exists rows,
    let out := insert_answers responseId entries d in
    answers (snd out) = (answers d ++ rows)%list /\
    questions (snd out) = questions d /\
    responses (snd out) = responses d /\
    admin (snd out) = admin d /\
    match fst out with
    | Normal _ => Forall2 (row_of responseId) entries rows
    | Abrupt =>
        exists done qid val rest,
          entries = (done ++ (qid, val) :: rest)%list /\
          ToNumber qid = None /\
          Forall2 (row_of responseId) done rows
    end.
Proof.
  revert d. induction entries as [ | [qid val] rest IH ]; intros d; simpl.
  - exists []. rewrite app_nil_r. repeat split; constructor.
  - destruct (ToNumber qid) as [n | ] eqn:Hn.
    + destruct (IH (insert_answer responseId n (safeVal val) d))
        as (rows & Ha & Hq & Hr & Hadm & Hrows).
      simpl in *.
      eexists (_ :: rows).
      rewrite Ha, Hq, Hr, Hadm. rewrite <- app_assoc. simpl.
      repeat split.
      destruct (fst (insert_answers responseId rest _)).
      * constructor; [ | exact Hrows ]. repeat split; simpl; auto.
      * destruct Hrows as (done & qid' & val' & rest' & -> & Hnan & Hdone).
        exists ((qid, val) :: done), qid', val', rest'.
        repeat split; auto.
        constructor; [ | exact Hdone ]. repeat split; simpl; auto.
    + exists []. simpl. rewrite app_nil_r. repeat split.
      exists [], qid, val, rest. repeat split; auto.
Qed.

Lemma insert_answers_normal (responseId : Z) (entries : list (string * json))
    (d : database) :
  Forall (fun e => ToNumber (fst e) <> None) entries ->
  fst (insert_answers responseId entries d) = Normal tt.
Proof.
  revert d. induction entries as [ | [qid val] rest IH ]; intros d Hall; simpl.
  - reflexivity.
  - inversion Hall as [ | ? ? Hqid Hrest ]; subst. simpl in Hqid.
    destruct (ToNumber qid); [ | congruence ]. now apply IH.
Qed.

(** The handler once both checks have let the request through *)
Lemma post_response_accepted (req : request) (d : database)
    (name : string) (ans : json) :
  name_accepted req name -> answers_object req ans ->
  post_response req d =
    let score := score_of ans in
    let (responseId, d1) := insert_response name score (now req) d in
    match insert_answers responseId (Object_entries ans) d1 with
    | (Abrupt, d2) => (Threw, d2)
    | (Normal _, d2) => (Json 200 (BodyResponse responseId score), d2)
    end.
Proof.
  intros (raw & Hraw & -> & Hne) (Hans & Hobj).
  unfold post_response. rewrite Hraw, Hans. simpl.
  destruct (String.eqb_spec (JsString.trim raw) "") as [Heq | _];
    [ contradiction | ].
  destruct Hobj as [(props & ->) | (items & ->)]; reflexivity.
Qed.

End Submission.

Section Score.
Context `{Runtime}.

Lemma ToNumber_digit_keys :
  ToNumber "1" = Some (NInt 1) /\ ToNumber "2" = Some (NInt 2) /\
  ToNumber "3" = Some (NInt 3).
Proof.
  repeat split.
  - exact (ToNumber_index 1).
  - exact (ToNumber_index 2).
  - exact (ToNumber_index 3).
Qed.

(** C1.  When a submission is let through with an answers field that is a
    non-null object, the score it computes is the sum, over all submitted
    values whatever their keys, of 2 for "topp", 3 for "flash" and 0 for
    anything else; that score is in the response row the handler stores and
    in the reply it sends.  For the answers {1:"topp", 2:"flash", 3:"bogus"}
    the score is 5 and the row for question 3 holds NULL. *)
Theorem submitted_score_is_reward_sum (req : request) (d : database)
    (name : string) (ans : json) :
  name_accepted req name -> answers_object req ans ->
  let out := post_response req d in
  (exists points responseId,
     Forall2 awards (Object_values ans) points /\
     responses (snd out)
       = (responses d
            ++ [mkResponse responseId name (sum points) (now req)])%list /\
     (fst out = Json 200 (BodyResponse responseId (sum points)) \/
      fst out = Threw)) /\
  (ans = JObject [("1", JString "topp"); ("2", JString "flash");
                  ("3", JString "bogus")] ->
   exists responseId i1 i2 i3,
     fst out = Json 200 (BodyResponse responseId 5) /\
     responses (snd out)
       = (responses d ++ [mkResponse responseId name 5 (now req)])%list /\
     answers (snd out)
       = (answers d ++ [mkAnswer i1 responseId (NInt 1) (Some "topp");
                        mkAnswer i2 responseId (NInt 2) (Some "flash");
                        mkAnswer i3 responseId (NInt 3) None])%list).
Proof.
  intros Hname Hans out. subst out.
  rewrite (post_response_accepted req d name ans Hname Hans).
  split.
  - destruct (score_of_awards ans) as (points & Hpoints & Hscore).
    exists points. rewrite <- Hscore.
    unfold insert_response. cbv zeta.
    set (rid := next_rowid _ _). set (d1 := mkDatabase _ _ _ _ _ _ _).
    exists rid. split; [ exact Hpoints | ].
    destruct (insert_answers_spec rid (Object_entries ans) d1)
      as (rows & _ & _ & Hr & _).
    cbv zeta in Hr.
    destruct (insert_answers rid (Object_entries ans) d1) as [[u | ] d2];
      simpl in *; rewrite Hr; auto.
  - intros ->.
    destruct ToNumber_digit_keys as (H1 & H2 & H3).
    unfold insert_response. cbv zeta. simpl Object_entries.
    unfold insert_answers. rewrite H1, H2, H3.
    do 4 eexists. simpl. repeat split.
    rewrite <- !app_assoc. reflexivity.
Qed.

End Score.

Lemma submitted_score_is_reward_sum_witness :
  name_accepted SampleInputs.submission "Ann" /\
  answers_object SampleInputs.submission SampleInputs.three_answers /\
  let out := @post_response Sample.runtime SampleInputs.submission
               empty_database in
  (exists points responseId,
     Forall2 awards (Object_values SampleInputs.three_answers) points /\
     responses (snd out)
       = [mkResponse responseId "Ann" (sum points) "2024-05-01 10:00:00"] /\
     (fst out = Json 200 (BodyResponse responseId (sum points)) \/
      fst out = Threw)) /\
  (SampleInputs.three_answers = SampleInputs.three_answers ->
   exists responseId i1 i2 i3,
     fst out = Json 200 (BodyResponse responseId 5) /\
     responses (snd out)
       = [mkResponse responseId "Ann" 5 "2024-05-01 10:00:00"] /\
     answers (snd out)
       = [mkAnswer i1 responseId (NInt 1) (Some "topp");
          mkAnswer i2 responseId (NInt 2) (Some "flash");
          mkAnswer i3 responseId (NInt 3) None]).
Proof.
  assert (Hname : name_accepted SampleInputs.submission "Ann").
  { exists " Ann ". repeat split. discriminate. }
  assert (Hans : answers_object SampleInputs.submission
                   SampleInputs.three_answers).
  { split; [ reflexivity | left; eexists; reflexivity ]. }
  split; [ exact Hname | split; [ exact Hans | ] ].
  exact (@submitted_score_is_reward_sum Sample.runtime
           SampleInputs.submission empty_database "Ann"
           SampleInputs.three_answers Hname Hans).
Defined.

(** ** Validation of a submission *)

Section Validation.
Context `{Runtime}.

Lemma indexed_values (k : nat) (items : list json) :
  map snd (indexed k items) = items.
Proof.
  revert k. induction items as [ | v rest IH ]; intros k; simpl.
  - reflexivity.
  - now rewrite IH.
Qed.

Lemma indexed_keys_numeric (k : nat) (items : list json) :
  Forall (fun e => ToNumber (fst e) <> None) (indexed k items).
Proof.
  revert k. induction items as [ | v rest IH ]; intros k; simpl;
    constructor; auto.
  simpl. rewrite ToNumber_index. discriminate.
Qed.

(** The rows written for an array: one per index, keyed by the index. *)
Lemma rows_of_indexed (responseId : Z) (k : nat) (items : list json)
    (rows : list answer) :
  Forall2 (row_of responseId) (indexed k items) rows ->
  List.length rows = List.length items /\
  forall i v, nth_error items i = Some v ->
    exists a, nth_error rows i = Some a /\
              a_response_id a = responseId /\
              a_question_id a = NInt (Z.of_nat (k + i)) /\
              a_value a = safeVal v.
Proof.
  revert k rows. induction items as [ | v0 rest IH ]; intros k rows Hrows;
    simpl in Hrows; inversion Hrows as [ | e a es rows' Hrow Hrest ]; subst.
  - split; [ reflexivity | ]. intros [ | i ] v; discriminate.
  - destruct (IH (S k) rows' Hrest) as (Hlen & Hnth).
    split; [ simpl; now rewrite Hlen | ].
    intros [ | i ] v Hv; simpl in Hv.
    + injection Hv as <-. exists a. destruct Hrow as (Hr & Hq & Hval).
      simpl in Hq, Hval. rewrite ToNumber_index in Hq. injection Hq as Hq.
      rewrite Nat.add_0_r. simpl. auto.
    + destruct (Hnth i v Hv) as (a' & Ha' & Hr & Hq & Hval).
      exists a'. simpl. replace (k + S i)%nat with (S k + i)%nat by lia. auto.
Qed.

Lemma name_missing_rejected (req : request) (d : database) :
  name_missing req ->
  post_response req d = (Json 400 (BodyError "name is required"), d).
Proof.
  unfold post_response.
  intros [Hnone | [Hnull | (raw & Hraw & Hblank)]].
  - now rewrite Hnone.
  - now rewrite Hnull.
  - rewrite Hraw. simpl. now rewrite Hblank.
Qed.

Lemma answers_rejected_400 (req : request) (d : database) (name : string) :
  name_accepted req name -> answers_rejected req ->
  post_response req d = (Json 400 (BodyError "answers is required"), d).
Proof.
  intros (raw & Hraw & -> & Hne) Hrej.
  unfold post_response. rewrite Hraw. simpl.
  destruct (String.eqb_spec (JsString.trim raw) "") as [Heq | _];
    [ contradiction | ].
  destruct (prop (body req) "answers") as [ans | ] eqn:Hans;
    [ | reflexivity ].
  destruct ans as [ | b | [ [ | p | p ] | r ] | s | items | props ];
    try reflexivity.
  - destruct b; reflexivity.
  - simpl. destruct (String.eqb s ""); reflexivity.
  - exfalso. apply (Hrej (JArray items)). split; eauto.
  - exfalso. apply (Hrej (JObject props)). split; eauto.
Qed.

Lemma accepted_rows (req : request) (d : database) (name : string)
    (ans : json) :
  name_accepted req name -> answers_object req ans ->
  Forall (fun e => ToNumber (fst e) <> None) (Object_entries ans) ->
  exists responseId rows,
    let out := post_response req d in
    fst out = Json 200 (BodyResponse responseId (score_of ans)) /\
    questions (snd out) = questions d /\
    admin (snd out) = admin d /\
    responses (snd out)
      = (responses d
           ++ [mkResponse responseId name (score_of ans) (now req)])%list /\
    answers (snd out) = (answers d ++ rows)%list /\
    Forall2 (row_of responseId) (Object_entries ans) rows.
Proof.
  intros Hname Hans Hkeys.
  rewrite (post_response_accepted req d name ans Hname Hans).
  unfold insert_response. cbv zeta.
  set (rid := next_rowid _ _). set (d1 := mkDatabase _ _ _ _ _ _ _).
  destruct (insert_answers_spec rid (Object_entries ans) d1)
    as (rows & Ha & Hq & Hr & Hadm & Hrows).
  cbv zeta in Ha, Hq, Hr, Hadm, Hrows.
  rewrite (insert_answers_normal rid _ d1 Hkeys) in Hrows.
  pose proof (insert_answers_normal rid _ d1 Hkeys) as Hnormal.
  destruct (insert_answers rid (Object_entries ans) d1) as [c d2].
  simpl in *. subst c.
  exists rid, rows. simpl. repeat split; assumption.
Qed.

End Validation.

Section Claims_on_validation.
Context `{Runtime}.

(** C7, amended.  A submission whose name is absent, null or a string of
    white space only is answered 400 with an error body and stores nothing;
    so is one whose name passes that check and whose answers field is
    absent, null or not of object type.  A submission passing both checks,
    all of whose keys [Number] reads as numbers, is answered 200 and adds
    exactly one response row and one answer row per submitted key. *)
Theorem submission_checked (req : request) (d : database) :
  (name_missing req ->
   post_response req d = (Json 400 (BodyError "name is required"), d)) /\
  (forall name, name_accepted req name -> answers_rejected req ->
   post_response req d = (Json 400 (BodyError "answers is required"), d)) /\
  (forall name ans,
     name_accepted req name -> answers_object req ans ->
     Forall (fun e => ToNumber (fst e) <> None) (Object_entries ans) ->
     exists responseId rows,
       let out := post_response req d in
       fst out = Json 200 (BodyResponse responseId (score_of ans)) /\
       questions (snd out) = questions d /\
       responses (snd out)
         = (responses d
              ++ [mkResponse responseId name (score_of ans) (now req)])%list /\
       answers (snd out) = (answers d ++ rows)%list /\
       List.length rows = List.length (Object_entries ans) /\
       Forall2 (row_of responseId) (Object_entries ans) rows).
Proof.
  split; [ apply name_missing_rejected | ].
  split; [ intros name; apply answers_rejected_400 | ].
  intros name ans Hname Hans Hkeys.
  destruct (accepted_rows req d name ans Hname Hans Hkeys)
    as (rid & rows & Hreply & Hq & _ & Hr & Ha & Hrows).
  exists rid, rows. cbv zeta. repeat split; auto.
  symmetry. eapply Forall2_length. exact Hrows.
Qed.

(** C10.  A submission whose answers field is a JSON array passes the
    checks: it is answered 200, its score is computed over the elements,
    and it adds one response row and one answer row per index, keyed
    0, 1, 2, ...; for the empty array the score is 0 and no answer row is
    added. *)
Theorem array_answers_accepted (req : request) (d : database)
    (name : string) (items : list json) :
  name_accepted req name ->
  prop (body req) "answers" = Some (JArray items) ->
  exists responseId rows points,
    let out := post_response req d in
    Forall2 awards items points /\
    fst out = Json 200 (BodyResponse responseId (sum points)) /\
    responses (snd out)
      = (responses d
           ++ [mkResponse responseId name (sum points) (now req)])%list /\
    answers (snd out) = (answers d ++ rows)%list /\
    List.length rows = List.length items /\
    (forall i v, nth_error items i = Some v ->
       exists a, nth_error rows i = Some a /\
                 a_response_id a = responseId /\
                 a_question_id a = NInt (Z.of_nat i) /\
                 a_value a = safeVal v) /\
    (items = [] -> sum points = 0 /\ rows = []).
Proof.
  intros Hname Hans.
  assert (Hobj : answers_object req (JArray items)) by (split; eauto).
  destruct (accepted_rows req d name (JArray items) Hname Hobj
              (indexed_keys_numeric 0 items))
    as (rid & rows & Hreply & _ & _ & Hr & Ha & Hrows).
  destruct (score_of_awards (JArray items)) as (points & Hpoints & Hscore).
  unfold Object_values in Hpoints. simpl Object_entries in Hpoints, Hrows.
  rewrite indexed_values in Hpoints.
  destruct (rows_of_indexed rid 0 items rows Hrows) as (Hlen & Hnth).
  exists rid, rows, points. cbv zeta in *. rewrite <- Hscore.
  repeat (split; [ solve [ auto ] | ]).
  intros ->. split; [ reflexivity | ].
  destruct rows; [ reflexivity | discriminate ].
Qed.

End Claims_on_validation.

Lemma sample_name_accepted (req : request) (answers : json) :
  body req = JObject [("name", JString "Ann"); ("answers", answers)] ->
  name_accepted req "Ann".
Proof.
  intros Hbody. exists "Ann". rewrite Hbody. repeat split. discriminate.
Defined.

Lemma submission_checked_witness :
  name_missing SampleSubmissions.blank_name /\
  @post_response Sample.runtime SampleSubmissions.blank_name empty_database
    = (Json 400 (BodyError "name is required"), empty_database) /\
  answers_rejected SampleSubmissions.string_answers /\
  @post_response Sample.runtime SampleSubmissions.string_answers
     empty_database
    = (Json 400 (BodyError "answers is required"), empty_database) /\
  exists responseId rows,
    let out := @post_response Sample.runtime SampleInputs.submission
                 empty_database in
    fst out = Json 200 (BodyResponse responseId 5) /\
    questions (snd out) = [] /\
    responses (snd out)
      = [mkResponse responseId "Ann" 5 (now SampleInputs.submission)] /\
    answers (snd out) = rows /\
    List.length rows = 3%nat /\
    Forall2 (@row_of Sample.runtime responseId)
      (Object_entries SampleInputs.three_answers) rows.
Proof.
  assert (Hblank : name_missing SampleSubmissions.blank_name).
  { right. right. exists "  ". split; reflexivity. }
  assert (Hrej : answers_rejected SampleSubmissions.string_answers).
  { intros ans (Hans & [(props & ->) | (items & ->)]); discriminate Hans. }
  assert (Hname : name_accepted SampleInputs.submission "Ann").
  { exists " Ann ". repeat split. discriminate. }
  assert (Hobj : answers_object SampleInputs.submission
                   SampleInputs.three_answers).
  { split; [ reflexivity | left; eexists; reflexivity ]. }
  assert (Hkeys : Forall (fun e => @ToNumber Sample.runtime (fst e) <> None)
                    (Object_entries SampleInputs.three_answers)).
  { repeat constructor; discriminate. }
  split; [ exact Hblank | ].
  split.
  { exact (proj1 (@submission_checked Sample.runtime
                    SampleSubmissions.blank_name empty_database) Hblank). }
  split; [ exact Hrej | ].
  split.
  { exact (proj1 (proj2 (@submission_checked Sample.runtime
                           SampleSubmissions.string_answers empty_database))
             "Ann"
             (sample_name_accepted SampleSubmissions.string_answers
                (JString "topp") eq_refl) Hrej). }
  exact (proj2 (proj2 (@submission_checked Sample.runtime
                         SampleInputs.submission empty_database))
           "Ann" SampleInputs.three_answers Hname Hobj Hkeys).
Defined.

Lemma array_answers_accepted_witness :
  name_accepted SampleSubmissions.array_answers "Ann" /\
  prop (body SampleSubmissions.array_answers) "answers"
    = Some (JArray [JString "topp"; JString "nope"; JString "flash"]) /\
  exists responseId rows points,
    let items := [JString "topp"; JString "nope"; JString "flash"] in
    let out := @post_response Sample.runtime SampleSubmissions.array_answers
                 empty_database in
    Forall2 awards items points /\
    fst out = Json 200 (BodyResponse responseId (sum points)) /\
    responses (snd out)
      = [mkResponse responseId "Ann" (sum points) SampleSubmissions.at_ten] /\
    answers (snd out) = rows /\
    List.length rows = 3%nat /\
    (forall i v, nth_error items i = Some v ->
       exists a, nth_error rows i = Some a /\
                 a_response_id a = responseId /\
                 a_question_id a = NInt (Z.of_nat i) /\
                 a_value a = safeVal v) /\
    (items = [] -> sum points = 0 /\ rows = []).
Proof.
  assert (Hname : name_accepted SampleSubmissions.array_answers "Ann").
  { exact (sample_name_accepted SampleSubmissions.array_answers
             (JArray [JString "topp"; JString "nope"; JString "flash"])
             eq_refl). }
  split; [ exact Hname | ].
  split; [ reflexivity | ].
  exact (@array_answers_accepted Sample.runtime
           SampleSubmissions.array_answers empty_database "Ann" _
           Hname eq_refl).
Defined.

(** The claim of C7 as first stated fails twice: a name that is a number
    makes the name check itself throw, so a request without answers is not
    answered 400; and a key that is not a number makes the loop throw after
    the response row is written, so the request is not answered 200 and
    the key has no answer row. *)
Lemma submission_checked_counterexample :
  (answers_rejected SampleSubmissions.number_name /\
   @post_response Sample.runtime SampleSubmissions.number_name empty_database
     = (Threw, empty_database)) /\
  (name_accepted SampleSubmissions.word_key "Ann" /\
   answers_object SampleSubmissions.word_key
     (JObject [("abc", JString "topp")]) /\
   let out := @post_response Sample.runtime SampleSubmissions.word_key
                empty_database in
   fst out = Threw /\
   responses (snd out) = [mkResponse 1 "Ann" 2 SampleSubmissions.at_ten] /\
   answers (snd out) = []).
Proof.
  split.
  - split; [ | reflexivity ].
    intros ans (Hans & _). discriminate Hans.
  - split.
    { exact (sample_name_accepted SampleSubmissions.word_key
               (JObject [("abc", JString "topp")]) eq_refl). }
    split; [ split; [ reflexivity | left; eexists; reflexivity ] | ].
    repeat split.
Qed.

(** ** The closed set of stored answer values *)

Section Closed_values.
Context `{Runtime}.

Lemma rows_closed (responseId : Z) (entries : list (string * json))
    (rows : list answer) :
  Forall2 (row_of responseId) entries rows -> Forall closed_value rows.
Proof.
  induction 1 as [ | e a es rows' (_ & _ & Hval) _ IH ]; constructor; auto.
  unfold closed_value. rewrite Hval. apply safeVal_closed.
Qed.

Lemma insert_answers_closed (responseId : Z) (entries : list (string * json))
    (d : database) :
  all_closed d -> all_closed (snd (insert_answers responseId entries d)).
Proof.
  intros Hd.
  destruct (insert_answers_spec responseId entries d)
    as (rows & Ha & _ & _ & _ & Hrows).
  cbv zeta in Ha, Hrows. unfold all_closed. rewrite Ha.
  apply Forall_app. split; [ exact Hd | ].
  destruct (fst (insert_answers responseId entries d)).
  - eapply rows_closed; eauto.
  - destruct Hrows as (done & _ & _ & _ & _ & _ & Hdone).
    eapply rows_closed; eauto.
Qed.

Lemma post_response_closed (req : request) (d : database) :
  all_closed d -> all_closed (snd (post_response req d)).
Proof.
  intros Hd. unfold post_response.
  destruct (optional_trim _) as [[name | ] | ]; simpl; auto.
  destruct (String.eqb name ""); simpl; auto.
  destruct (negb _ || negb _); simpl; auto.
  unfold insert_response. cbv zeta.
  match goal with
  | |- context [insert_answers ?r ?e ?d1] =>
      pose proof (insert_answers_closed r e d1 Hd) as Hclosed;
      destruct (insert_answers r e d1) as [[u | ] d2]
  end; exact Hclosed.
Qed.

Lemma post_question_answers (req : request) (d : database) :
  answers (snd (post_question req d)) = answers d.
Proof.
  unfold post_question.
  destruct (optional_trim _) as [[text | ] | ]; simpl; auto.
  destruct (String.eqb text ""); reflexivity.
Qed.

Lemma put_question_answers (id : string) (req : request) (d : database) :
  answers (snd (put_question id req d)) = answers d.
Proof.
  unfold put_question.
  destruct (optional_trim _) as [[text | ] | ]; simpl; auto.
  destruct (String.eqb text ""); reflexivity.
Qed.

Lemma delete_response_closed (id : string) (d : database) :
  all_closed d -> all_closed (snd (delete_response id d)).
Proof.
  unfold all_closed. simpl. rewrite !List.Forall_forall.
  intros Hd a Ha. apply filter_In in Ha. apply Hd. tauto.
Qed.

Lemma seed_from_answers (i : Z) (texts : list string) (now : string)
    (d : database) :
  answers (seed_from i texts now d) = answers d.
Proof.
  revert i d. induction texts as [ | text rest IH ]; intros i d; simpl.
  - reflexivity.
  - now rewrite IH.
Qed.

Lemma seed_questions_answers (now : string) (d : database) :
  answers (seed_questions now d) = answers d.
Proof.
  unfold seed_questions.
  destruct (_ =? 0); [ apply seed_from_answers | reflexivity ].
Qed.

Lemma login_db (s : SessionVariant.server) (req : request) :
  SessionVariant.db (snd (SessionVariant.login s req)) = SessionVariant.db s.
Proof.
  unfold SessionVariant.login.
  destruct (negb _); simpl; auto.
  destruct (admin _); simpl; auto.
  destruct (prop _ _) as [[ | | | p | | ] | ]; simpl; auto.
  destruct (bcrypt_compare _ _); reflexivity.
Qed.

Ltac closed_step Hd :=
  first [ exact Hd
        | rewrite login_db; exact Hd
        | unfold all_closed; rewrite post_question_answers; exact Hd
        | unfold all_closed; rewrite put_question_answers; exact Hd
        | apply post_response_closed; exact Hd
        | apply delete_response_closed; exact Hd ].

Lemma session_handle_closed (s : SessionVariant.server) (req : request) :
  all_closed (SessionVariant.db s) ->
  all_closed (SessionVariant.db (snd (SessionVariant.handle s req))).
Proof.
  intros Hd. unfold SessionVariant.handle.
  destruct (route req);
    unfold SessionVariant.guarded, SessionVariant.with_db;
    try destruct (SessionVariant.requireAdmin s req);
    cbn [fst snd SessionVariant.db]; closed_step Hd.
Qed.

Lemma static_handle_closed (password : string) (d : database)
    (req : request) :
  all_closed d -> all_closed (snd (StaticVariant.handle password d req)).
Proof.
  intros Hd. unfold StaticVariant.handle.
  destruct (route req);
    unfold StaticVariant.guarded;
    try destruct (StaticVariant.requireAdmin password req);
    cbn [fst snd]; closed_step Hd.
Qed.

Lemma operation_closed (d d' : database) :
  operation d d' -> all_closed d -> all_closed d'.
Proof.
  intros Hop Hd. destruct Hop.
  - now apply session_handle_closed.
  - now apply static_handle_closed.
  - unfold all_closed. simpl. rewrite seed_questions_answers.
    destruct (admin d); exact Hd.
  - unfold all_closed, StaticVariant.start. now rewrite seed_questions_answers.
Qed.

(** C4.  In every state reachable from the empty database by the
    operations of the service, each stored answer value is "topp", "flash"
    or NULL; a submitted value that is neither token is not rejected: its
    row is written with NULL. *)
Theorem stored_values_closed (d : database) :
  reachable d ->
  Forall closed_value (answers d) /\
  (forall val, val <> JString "topp" -> val <> JString "flash" ->
     safeVal val = None /\
     forall responseId qid n d0, ToNumber qid = Some n ->
       insert_answers responseId [(qid, val)] d0
       = (Normal tt, insert_answer responseId n None d0)).
Proof.
  intros Hreach. split.
  - induction Hreach as [ | d d' _ IH Hop ].
    + constructor.
    + exact (operation_closed d d' Hop IH).
  - intros val Htopp Hflash.
    pose proof (safeVal_other val Htopp Hflash) as Hnull.
    split; [ exact Hnull | ].
    intros responseId qid n d0 Hn. simpl. now rewrite Hn, Hnull.
Qed.

End Closed_values.

Lemma stored_values_closed_witness :
  let d := snd (@StaticVariant.handle Sample.runtime "admin123"
                  empty_database SampleInputs.submission) in
  @reachable Sample.runtime d /\
  Forall closed_value (answers d) /\
  (forall val, val <> JString "topp" -> val <> JString "flash" ->
     safeVal val = None /\
     forall responseId qid n d0, @ToNumber Sample.runtime qid = Some n ->
       @insert_answers Sample.runtime responseId [(qid, val)] d0
       = (Normal tt, insert_answer responseId n None d0)).
Proof.
  assert (Hreach : @reachable Sample.runtime
            (snd (@StaticVariant.handle Sample.runtime "admin123"
                    empty_database SampleInputs.submission))).
  { eapply reachable_step; [ apply reachable_empty | apply op_static ]. }
  split; [ exact Hreach | ].
  exact (@stored_values_closed Sample.runtime _ Hreach).
Defined.

(** ** Authorization *)

Section Authorization.
Context `{Runtime}.

Lemma bearer_prefix_removed (token : string) :
  JsString.replace_first "Bearer " ("Bearer " ++ token) = token.
Proof. reflexivity. Qed.

Lemma session_gate (s : SessionVariant.server) (req : request) :
  SessionVariant.requireAdmin s req = true <-> session_credential s req.
Proof.
  unfold SessionVariant.requireAdmin, session_credential.
  destruct (authorization req) as [header | ].
  - rewrite andb_true_iff, negb_true_iff, String.eqb_neq, bool_decide_eq_true.
    split.
    + intros [Hne Hin]. exists header. auto.
    + intros (header' & Heq & Hne & Hin). injection Heq as <-. auto.
  - split; [ discriminate | ]. intros (header & Heq & _). discriminate.
Qed.

Lemma static_gate (password : string) (req : request) :
  StaticVariant.requireAdmin password req = true
  <-> static_credential password req.
Proof.
  unfold StaticVariant.requireAdmin, static_credential.
  destruct (authorization req) as [header | ].
  - rewrite String.eqb_eq. split; congruence.
  - split; discriminate.
Qed.

Lemma session_gate_closed (s : SessionVariant.server) (req : request) :
  ~ session_credential s req -> SessionVariant.requireAdmin s req = false.
Proof.
  intros Hno. destruct (SessionVariant.requireAdmin s req) eqn:Hgate; auto.
  apply session_gate in Hgate. contradiction.
Qed.

Lemma static_gate_closed (password : string) (req : request) :
  ~ static_credential password req ->
  StaticVariant.requireAdmin password req = false.
Proof.
  intros Hno. destruct (StaticVariant.requireAdmin password req) eqn:Hgate;
    auto.
  apply static_gate in Hgate. contradiction.
Qed.

(** C2, amended.  A request to a protected endpoint without a valid
    credential is answered 401 with an error body and changes nothing,
    where the credential is, in the session variant, an Authorization
    header that is a non-empty active session once its first "Bearer " is
    removed, and, in the static variant, the header "Bearer <password>".
    The session variant guards question create, update and delete,
    response reads, response deletes and analytics reads; the static
    variant guards the same endpoints except response deletes, for which
    it has no route.  Question reads, the health check and response
    submission do not look at the header in either variant. *)
Theorem protected_routes_need_credential (req : request) :
  (forall s, protected (route req) -> ~ session_credential s req ->
     SessionVariant.handle s req = (Json 401 (BodyError "Unauthorized"), s)) /\
  (forall password d,
     protected (route req) -> ~ response_delete (route req) ->
     ~ static_credential password req ->
     StaticVariant.handle password d req
     = (Json 401 (BodyError "Unauthorized"), d)) /\
  (forall password d,
     response_delete (route req) ->
     StaticVariant.handle password d req = (NotFound, d)) /\
  (public (route req) ->
   forall header,
     (forall s, SessionVariant.handle s (with_authorization header req)
                = SessionVariant.handle s req) /\
     (forall password d,
        StaticVariant.handle password d (with_authorization header req)
        = StaticVariant.handle password d req)) /\
  (forall s token,
     authorization req = Some ("Bearer " ++ token) ->
     (session_credential s req <->
      token <> "" /\ token ∈ SessionVariant.activeSessions s)).
Proof.
  split; [ | split; [ | split; [ | split ] ] ].
  - intros s Hprot Hno. apply session_gate_closed in Hno.
    unfold SessionVariant.handle, SessionVariant.guarded.
    destruct (route req); try contradiction; now rewrite Hno.
  - intros password d Hprot Hnodel Hno. apply static_gate_closed in Hno.
    unfold StaticVariant.handle, StaticVariant.guarded.
    destruct (route req); try contradiction; now rewrite Hno.
  - intros password d Hdel. unfold StaticVariant.handle.
    destruct (route req); try contradiction; reflexivity.
  - intros Hpub header. split.
    + intros s. unfold SessionVariant.handle, with_authorization. simpl.
      destruct (route req); try contradiction; reflexivity.
    + intros password d. unfold StaticVariant.handle, with_authorization.
      simpl. destruct (route req); try contradiction; reflexivity.
  - intros s token Hheader. unfold session_credential. split.
    + intros (header & Heq & Hne & Hin). rewrite Hheader in Heq.
      injection Heq as <-. rewrite bearer_prefix_removed in Hne, Hin. auto.
    + intros [Hne Hin]. exists ("Bearer " ++ token).
      rewrite bearer_prefix_removed. auto.
Qed.

End Authorization.

Lemma protected_routes_need_credential_witness :
  protected (route SampleAuth.anonymous_analytics) /\
  ~ session_credential SampleAuth.logged_in SampleAuth.anonymous_analytics /\
  @SessionVariant.handle Sample.runtime SampleAuth.logged_in
     SampleAuth.anonymous_analytics
    = (Json 401 (BodyError "Unauthorized"), SampleAuth.logged_in) /\
  ~ static_credential "admin123" SampleAuth.anonymous_analytics /\
  @StaticVariant.handle Sample.runtime "admin123" empty_database
     SampleAuth.anonymous_analytics
    = (Json 401 (BodyError "Unauthorized"), empty_database) /\
  response_delete (route SampleAuth.delete_7) /\
  @StaticVariant.handle Sample.runtime "admin123" empty_database
     SampleAuth.delete_7
    = (NotFound, empty_database) /\
  (session_credential SampleAuth.logged_in SampleAuth.bearer_token <->
   "k3y" <> "" /\ "k3y" ∈ SessionVariant.activeSessions SampleAuth.logged_in).
Proof.
  assert (Hsession : ~ session_credential SampleAuth.logged_in
                       SampleAuth.anonymous_analytics).
  { intros (header & Heq & _). discriminate Heq. }
  assert (Hstatic : ~ static_credential "admin123"
                      SampleAuth.anonymous_analytics).
  { intros Heq. discriminate Heq. }
  destruct (@protected_routes_need_credential Sample.runtime
              SampleAuth.anonymous_analytics) as (Hs & Hst & _).
  destruct (@protected_routes_need_credential Sample.runtime
              SampleAuth.delete_7) as (_ & _ & Hdel & _).
  destruct (@protected_routes_need_credential Sample.runtime
              SampleAuth.bearer_token) as (_ & _ & _ & _ & Hbearer).
  split; [ exact I | ].
  split; [ exact Hsession | ].
  split; [ exact (Hs SampleAuth.logged_in I Hsession) | ].
  split; [ exact Hstatic | ].
  split; [ exact (Hst "admin123" empty_database I (fun x => x) Hstatic) | ].
  split; [ exact I | ].
  split; [ exact (Hdel "admin123" empty_database I) | ].
  exact (Hbearer SampleAuth.logged_in "k3y" eq_refl).
Defined.

(** The claim of C2 as first stated fails twice: the static variant has no
    route for response deletes, so such a request without the password is
    not answered 401; and the session gate lets through a header that is
    the bare token, without the "Bearer " scheme. *)
Lemma protected_routes_need_credential_counterexample :
  (protected (route SampleAuth.delete_7) /\
   ~ static_credential "admin123" SampleAuth.delete_7 /\
   @StaticVariant.handle Sample.runtime "admin123" empty_database
      SampleAuth.delete_7
     = (NotFound, empty_database)) /\
  (protected (route SampleAuth.bare_token) /\
   (forall token,
      authorization SampleAuth.bare_token <> Some ("Bearer " ++ token)) /\
   fst (@SessionVariant.handle Sample.runtime SampleAuth.logged_in
          SampleAuth.bare_token)
     = Json 200 (BodyQuestion 1 "Route 6" 1)).
Proof.
  split.
  - split; [ exact I | ]. split; [ | reflexivity ].
    intros Heq. discriminate Heq.
  - split; [ exact I | ]. split; [ | reflexivity ].
    intros token Heq. inversion Heq.
Qed.

(** ** Question and response management *)

Lemma fold_max_spec (ps : list Z) (p : Z) :
  In (fold_left Z.max ps p) (p :: ps) /\
  Forall (fun x => x <= fold_left Z.max ps p) (p :: ps).
Proof.
  revert p. induction ps as [ | q ps IH ]; intros p; simpl.
  - split; [ auto | ]. constructor; [ lia | constructor ].
  - destruct (IH (Z.max p q)) as (Hin & Hall).
    inversion Hall as [ | ? ? Hhead Htail ]; subst.
    split.
    + destruct Hin as [Hin | Hin]; [ | right; right; exact Hin ].
      destruct (Z.max_spec p q) as [[_ Hm] | [_ Hm]]; rewrite Hm in Hin |- *.
      * right. left. exact Hin.
      * left. exact Hin.
    + constructor; [ lia | ]. constructor; [ lia | exact Htail ].
Qed.

Lemma max_position_spec (qs : list question) :
  max_or_zero (map q_position qs) (max_position qs).
Proof.
  unfold max_or_zero, max_position.
  destruct (map q_position qs) as [ | p ps ]; [ left; auto | right ].
  apply fold_max_spec.
Qed.

Lemma filter_all {A : Type} (f : A -> bool) (l : list A) :
  Forall (fun x => f x = true) l -> List.filter f l = l.
Proof.
  induction 1 as [ | x l Hx _ IH ]; simpl; [ reflexivity | ].
  now rewrite Hx, IH.
Qed.

Lemma filter_none_left {A : Type} (f : A -> bool) (l : list A) :
  Forall (fun x => f x = false) (List.filter (fun x => negb (f x)) l).
Proof.
  apply List.Forall_forall. intros x Hx. apply filter_In in Hx.
  now apply negb_true_iff.
Qed.

Section Management.
Context `{Runtime}.

Lemma post_question_accepted (req : request) (d : database) (text : string) :
  text_accepted req text ->
  post_question req d =
    let pos := max_position (questions d) + 1 in
    let (id, d') := insert_question text pos (now req) d in
    (Json 200 (BodyQuestion id text pos), d').
Proof.
  intros (raw & Hraw & -> & Hne). unfold post_question. rewrite Hraw. simpl.
  destruct (String.eqb_spec (JsString.trim raw) "") as [Heq | _];
    [ contradiction | reflexivity ].
Qed.

Lemma put_question_accepted (id : string) (req : request) (d : database)
    (text : string) :
  text_accepted req text ->
  put_question id req d = (Json 200 BodyOk, update_question_text text id d).
Proof.
  intros (raw & Hraw & -> & Hne). unfold put_question. rewrite Hraw. simpl.
  destruct (String.eqb_spec (JsString.trim raw) "") as [Heq | _];
    [ contradiction | reflexivity ].
Qed.

Lemma update_absent (text id : string) (d : database) :
  Forall (fun q => sql_text_eq_int id (q_id q) = false) (questions d) ->
  update_question_text text id d = d.
Proof.
  intros Habsent. unfold update_question_text. destruct d as [qs rs ans a x y z].
  simpl in *. f_equal.
  induction Habsent as [ | q qs' Hq _ IH ]; simpl; [ reflexivity | ].
  now rewrite Hq, IH.
Qed.

Lemma delete_absent (id : string) (d : database) :
  Forall (fun q => sql_text_eq_int id (q_id q) = false) (questions d) ->
  delete_question_rows id d = d.
Proof.
  intros Habsent. unfold delete_question_rows.
  destruct d as [qs rs ans a x y z]. simpl in *. f_equal.
  apply filter_all. eapply List.Forall_impl; [ | exact Habsent ].
  intros q Hq. simpl in Hq. now rewrite Hq.
Qed.

Lemma session_admitted (s : SessionVariant.server) (req : request)
    (handler : database -> reply * database) :
  SessionVariant.requireAdmin s req = true ->
  SessionVariant.guarded s req handler
  = SessionVariant.with_db s (handler (SessionVariant.db s)).
Proof. intros Hgate. unfold SessionVariant.guarded. now rewrite Hgate. Qed.

Lemma static_admitted (password : string) (d : database) (req : request)
    (handler : database -> reply * database) :
  StaticVariant.requireAdmin password req = true ->
  StaticVariant.guarded password d req handler = handler d.
Proof. intros Hgate. unfold StaticVariant.guarded. now rewrite Hgate. Qed.

(** C3.  An authorized question creation whose text is not empty after
    trimming stores and returns the position 1 + m, where m is the largest
    position among the existing questions, or 0 if there are none. *)
Theorem created_question_position (req : request) (text : string) :
  route req = POST_questions -> text_accepted req text ->
  (forall s, SessionVariant.requireAdmin s req = true ->
     exists id m,
       let d := SessionVariant.db s in
       let out := SessionVariant.handle s req in
       max_or_zero (map q_position (questions d)) m /\
       fst out = Json 200 (BodyQuestion id text (1 + m)) /\
       questions (SessionVariant.db (snd out))
         = (questions d ++ [mkQuestion id text (1 + m) (now req)])%list) /\
  (forall password d, StaticVariant.requireAdmin password req = true ->
     exists id m,
       let out := StaticVariant.handle password d req in
       max_or_zero (map q_position (questions d)) m /\
       fst out = Json 200 (BodyQuestion id text (1 + m)) /\
       questions (snd out)
         = (questions d ++ [mkQuestion id text (1 + m) (now req)])%list).
Proof.
  intros Hroute Htext. split.
  - intros s Hgate.
    exists (next_rowid (seq_questions (SessionVariant.db s))
              (map q_id (questions (SessionVariant.db s)))),
           (max_position (questions (SessionVariant.db s))).
    cbv zeta. unfold SessionVariant.handle. rewrite Hroute.
    rewrite (session_admitted _ _ _ Hgate).
    rewrite (post_question_accepted _ _ _ Htext).
    rewrite (Z.add_comm 1). simpl.
    split; [ apply max_position_spec | split; reflexivity ].
  - intros password d Hgate.
    exists (next_rowid (seq_questions d) (map q_id (questions d))),
           (max_position (questions d)).
    cbv zeta. unfold StaticVariant.handle. rewrite Hroute.
    rewrite (static_admitted _ _ _ _ Hgate).
    rewrite (post_question_accepted _ _ _ Htext).
    rewrite (Z.add_comm 1). simpl.
    split; [ apply max_position_spec | split; reflexivity ].
Qed.

(** C5.  An authorized DELETE of a response removes the answer rows of
    that response, then the response row: afterwards no answer row has
    that response_id and no response row has that id, every other answer
    and response row is kept, and the questions, the admin row, the
    counters and the sessions are as before. *)
Theorem response_deleted_with_answers (s : SessionVariant.server)
    (req : request) (id : string) :
  route req = DELETE_response id ->
  SessionVariant.requireAdmin s req = true ->
  let d := SessionVariant.db s in
  let out := SessionVariant.handle s req in
  let d' := SessionVariant.db (snd out) in
  fst out = Json 200 BodyOk /\
  d' = delete_response_row id (delete_answers_of id d) /\
  answers d'
    = List.filter (fun a => negb (sql_text_eq_int id (a_response_id a)))
        (answers d) /\
  responses d'
    = List.filter (fun r => negb (sql_text_eq_int id (r_id r)))
        (responses d) /\
  Forall (fun a => sql_text_eq_int id (a_response_id a) = false)
    (answers d') /\
  Forall (fun r => sql_text_eq_int id (r_id r) = false) (responses d') /\
  questions d' = questions d /\
  admin d' = admin d /\
  (seq_questions d', seq_responses d', seq_answers d')
    = (seq_questions d, seq_responses d, seq_answers d) /\
  SessionVariant.activeSessions (snd out) = SessionVariant.activeSessions s.
Proof.
  intros Hroute Hgate d out d'. subst d out d'.
  unfold SessionVariant.handle. rewrite Hroute.
  rewrite (session_admitted _ _ _ Hgate). simpl.
  repeat (split; [ reflexivity | ]).
  split; [ apply (filter_none_left (fun a => sql_text_eq_int id (a_response_id a))) | ].
  split; [ apply (filter_none_left (fun r => sql_text_eq_int id (r_id r))) | ].
  repeat split.
Qed.

(** C6.  An authorized DELETE of a question is answered with the ok reply
    whatever the answers hold: the answer rows, also those that reference
    the question, and the responses stay as they are; when no question has
    that id nothing changes at all.  An authorized update with an accepted
    text of an id that no question has is answered with the ok reply and
    changes nothing. *)
Theorem question_delete_and_update_tolerant (req : request) (id : string) :
  (route req = DELETE_question id ->
   (forall s, SessionVariant.requireAdmin s req = true ->
      let d := SessionVariant.db s in
      let out := SessionVariant.handle s req in
      fst out = Json 200 BodyOk /\
      answers (SessionVariant.db (snd out)) = answers d /\
      responses (SessionVariant.db (snd out)) = responses d /\
      questions (SessionVariant.db (snd out))
        = List.filter (fun q => negb (sql_text_eq_int id (q_id q)))
            (questions d) /\
      (Forall (fun q => sql_text_eq_int id (q_id q) = false) (questions d) ->
       snd out = s)) /\
   (forall password d, StaticVariant.requireAdmin password req = true ->
      let out := StaticVariant.handle password d req in
      fst out = Json 200 BodyOk /\
      answers (snd out) = answers d /\
      responses (snd out) = responses d /\
      questions (snd out)
        = List.filter (fun q => negb (sql_text_eq_int id (q_id q)))
            (questions d) /\
      (Forall (fun q => sql_text_eq_int id (q_id q) = false) (questions d) ->
       snd out = d))) /\
  (forall text, route req = PUT_question id -> text_accepted req text ->
   (forall s, SessionVariant.requireAdmin s req = true ->
      Forall (fun q => sql_text_eq_int id (q_id q) = false)
        (questions (SessionVariant.db s)) ->
      SessionVariant.handle s req = (Json 200 BodyOk, s)) /\
   (forall password d, StaticVariant.requireAdmin password req = true ->
      Forall (fun q => sql_text_eq_int id (q_id q) = false) (questions d) ->
      StaticVariant.handle password d req = (Json 200 BodyOk, d))).
Proof.
  split.
  - intros Hroute. split.
    + intros s Hgate. cbv zeta. unfold SessionVariant.handle. rewrite Hroute.
      rewrite (session_admitted _ _ _ Hgate). simpl.
      repeat (split; [ reflexivity | ]).
      intros Habsent. rewrite (delete_absent _ _ Habsent). now destruct s.
    + intros password d Hgate. cbv zeta. unfold StaticVariant.handle.
      rewrite Hroute. rewrite (static_admitted _ _ _ _ Hgate). simpl.
      repeat (split; [ reflexivity | ]).
      apply delete_absent.
  - intros text Hroute Htext. split.
    + intros s Hgate Habsent. unfold SessionVariant.handle. rewrite Hroute.
      rewrite (session_admitted _ _ _ Hgate).
      rewrite (put_question_accepted _ _ _ _ Htext).
      rewrite (update_absent _ _ _ Habsent). now destruct s.
    + intros password d Hgate Habsent. unfold StaticVariant.handle.
      rewrite Hroute. rewrite (static_admitted _ _ _ _ Hgate).
      rewrite (put_question_accepted _ _ _ _ Htext).
      now rewrite (update_absent _ _ _ Habsent).
Qed.

End Management.

Lemma sample_text_accepted (req : request) :
  body req = SampleAdmin.new_text -> text_accepted req "Route 6".
Proof.
  intros Hbody. exists " Route 6 ". rewrite Hbody. repeat split. discriminate.
Defined.

Lemma created_question_position_witness :
  let req := SampleAdmin.admin_request POST_questions SampleAdmin.new_text in
  let req' := SampleAdmin.static_request POST_questions SampleAdmin.new_text in
  route req = POST_questions /\ text_accepted req "Route 6" /\
  SessionVariant.requireAdmin SampleAdmin.server req = true /\
  StaticVariant.requireAdmin "admin123" req' = true /\
  (exists id m,
     let out := @SessionVariant.handle Sample.runtime SampleAdmin.server req in
     max_or_zero [0; 4] m /\
     fst out = Json 200 (BodyQuestion id "Route 6" (1 + m)) /\
     questions (SessionVariant.db (snd out))
       = (questions SampleAdmin.stocked
            ++ [mkQuestion id "Route 6" (1 + m) SampleAdmin.at_noon])%list) /\
  (exists id m,
     let out := @StaticVariant.handle Sample.runtime "admin123"
                  SampleAdmin.stocked req' in
     max_or_zero [0; 4] m /\
     fst out = Json 200 (BodyQuestion id "Route 6" (1 + m)) /\
     questions (snd out)
       = (questions SampleAdmin.stocked
            ++ [mkQuestion id "Route 6" (1 + m) SampleAdmin.at_noon])%list).
Proof.
  intros req req'.
  assert (Htext : text_accepted req "Route 6")
    by exact (sample_text_accepted req eq_refl).
  assert (Htext' : text_accepted req' "Route 6")
    by exact (sample_text_accepted req' eq_refl).
  split; [ reflexivity | ].
  split; [ exact Htext | ].
  split; [ reflexivity | ].
  split; [ reflexivity | ].
  split.
  - exact (proj1 (@created_question_position Sample.runtime req "Route 6"
                    eq_refl Htext) SampleAdmin.server eq_refl).
  - exact (proj2 (@created_question_position Sample.runtime req' "Route 6"
                    eq_refl Htext') "admin123" SampleAdmin.stocked eq_refl).
Defined.

Lemma response_deleted_with_answers_witness :
  let req := SampleAdmin.admin_request (DELETE_response "1") (JObject []) in
  let out := @SessionVariant.handle Sample.runtime SampleAdmin.server req in
  let d' := SessionVariant.db (snd out) in
  route req = DELETE_response "1" /\
  SessionVariant.requireAdmin SampleAdmin.server req = true /\
  fst out = Json 200 BodyOk /\
  answers d' = [mkAnswer 2 2 (NInt 2) (Some "flash")] /\
  responses d' = [mkResponse 2 "Bob" 3 SampleAdmin.at_noon] /\
  Forall (fun a => Sample.text_eq_int "1" (a_response_id a) = false)
    (answers d') /\
  Forall (fun r => Sample.text_eq_int "1" (r_id r) = false) (responses d') /\
  questions d' = questions SampleAdmin.stocked /\
  SessionVariant.activeSessions (snd out)
    = SessionVariant.activeSessions SampleAdmin.server.
Proof.
  intros req out d'.
  destruct (@response_deleted_with_answers Sample.runtime SampleAdmin.server
              req "1" eq_refl eq_refl)
    as (Hreply & _ & Ha & Hr & Hna & Hnr & Hq & _ & _ & Hs).
  split; [ reflexivity | ].
  split; [ reflexivity | ].
  split; [ exact Hreply | ].
  split; [ exact Ha | ].
  split; [ exact Hr | ].
  split; [ exact Hna | ].
  split; [ exact Hnr | ].
  split; [ exact Hq | exact Hs ].
Defined.

Lemma question_delete_and_update_tolerant_witness :
  let gone := SampleAdmin.admin_request (DELETE_question "2") (JObject []) in
  let none := SampleAdmin.static_request (DELETE_question "9") (JObject []) in
  let edit := SampleAdmin.admin_request (PUT_question "9")
                SampleAdmin.new_text in
  (route gone = DELETE_question "2" /\
   SessionVariant.requireAdmin SampleAdmin.server gone = true /\
   let out := @SessionVariant.handle Sample.runtime SampleAdmin.server gone in
   fst out = Json 200 BodyOk /\
   answers (SessionVariant.db (snd out)) = answers SampleAdmin.stocked /\
   questions (SessionVariant.db (snd out))
     = [mkQuestion 1 "Route 1: Red Wall" 0 SampleAdmin.at_noon]) /\
  (route none = DELETE_question "9" /\
   StaticVariant.requireAdmin "admin123" none = true /\
   Forall (fun q => Sample.text_eq_int "9" (q_id q) = false)
     (questions SampleAdmin.stocked) /\
   let out := @StaticVariant.handle Sample.runtime "admin123"
                SampleAdmin.stocked none in
   fst out = Json 200 BodyOk /\ snd out = SampleAdmin.stocked) /\
  (route edit = PUT_question "9" /\ text_accepted edit "Route 6" /\
   SessionVariant.requireAdmin SampleAdmin.server edit = true /\
   @SessionVariant.handle Sample.runtime SampleAdmin.server edit
     = (Json 200 BodyOk, SampleAdmin.server)).
Proof.
  intros gone none edit.
  assert (Habsent : Forall (fun q => Sample.text_eq_int "9" (q_id q) = false)
                      (questions SampleAdmin.stocked))
    by (repeat constructor).
  assert (Htext : text_accepted edit "Route 6")
    by exact (sample_text_accepted edit eq_refl).
  split; [ | split ].
  - split; [ reflexivity | ]. split; [ reflexivity | ].
    destruct (proj1 (proj1 (@question_delete_and_update_tolerant
                              Sample.runtime gone "2") eq_refl)
                SampleAdmin.server eq_refl)
      as (Hreply & Ha & _ & Hq & _).
    split; [ exact Hreply | ]. split; [ exact Ha | exact Hq ].
  - split; [ reflexivity | ]. split; [ reflexivity | ].
    split; [ exact Habsent | ].
    destruct (proj2 (proj1 (@question_delete_and_update_tolerant
                              Sample.runtime none "9") eq_refl)
                "admin123" SampleAdmin.stocked eq_refl)
      as (Hreply & _ & _ & _ & Hsame).
    split; [ exact Hreply | exact (Hsame Habsent) ].
  - split; [ reflexivity | ]. split; [ exact Htext | ].
    split; [ reflexivity | ].
    exact (proj1 (proj2 (@question_delete_and_update_tolerant
                           Sample.runtime edit "9") "Route 6" eq_refl Htext)
             SampleAdmin.server eq_refl Habsent).
Defined.

(** ** Read models: analytics and the leaderboard *)

Section Ordering.
Context {A : Type} (le : A -> A -> bool).
Hypothesis le_total : forall a b, le a b = true \/ le b a = true.
Hypothesis le_trans :
  forall a b c, le a b = true -> le b c = true -> le a c = true.

Lemma insert_by_perm (x : A) (l : list A) :
  Permutation (x :: l) (insert_by le x l).
Proof.
  induction l as [ | y r IH ]; simpl.
  - apply Permutation_refl.
  - destruct (le x y).
    + apply Permutation_refl.
    + eapply perm_trans; [ apply perm_swap | ]. now apply perm_skip.
Qed.

Lemma insert_by_Forall (P : A -> Prop) (x : A) (l : list A) :
  P x -> Forall P l -> Forall P (insert_by le x l).
Proof.
  intros Hx Hl. induction Hl as [ | y r Hy Hr IH ]; simpl.
  - constructor; [ exact Hx | constructor ].
  - destruct (le x y); repeat constructor; auto.
Qed.

Lemma insert_by_sorted (x : A) (l : list A) :
  StronglySorted (fun a b => le a b = true) l ->
  StronglySorted (fun a b => le a b = true) (insert_by le x l).
Proof.
  induction 1 as [ | y r Hsorted IH Hall ]; simpl.
  - constructor; constructor.
  - destruct (le x y) eqn:Hxy.
    + constructor; [ constructor; assumption | ].
      constructor; [ exact Hxy | ].
      eapply List.Forall_impl; [ | exact Hall ].
      intros z Hz. simpl in Hz. eapply le_trans; eauto.
    + constructor; [ exact IH | ].
      apply insert_by_Forall; [ | exact Hall ].
      destruct (le_total x y) as [Hle | Hle]; congruence.
Qed.

Lemma order_by_ordered (rows : list A) :
  ordered_by le rows (order_by le rows).
Proof.
  unfold ordered_by, order_by. induction rows as [ | x rows [Hperm Hsorted] ];
    simpl.
  - split; [ apply perm_nil | constructor ].
  - split.
    + eapply perm_trans; [ apply perm_skip; exact Hperm | ].
      apply insert_by_perm.
    + now apply insert_by_sorted.
Qed.

End Ordering.

Lemma sorted_firstn {A : Type} (R : A -> A -> Prop) (n : nat) (l : list A) :
  StronglySorted R l -> StronglySorted R (firstn n l).
Proof.
  intros Hsorted. revert n.
  induction Hsorted as [ | x l _ IH Hall ]; intros [ | n ]; simpl;
    try constructor; auto.
  apply List.Forall_forall. intros y Hy.
  rewrite List.Forall_forall in Hall. apply Hall.
  rewrite <- (firstn_skipn n l). apply in_or_app. now left.
Qed.

Lemma sorted_map {A B : Type} (R : A -> A -> Prop) (S : B -> B -> Prop)
    (f : A -> B) (l : list A) :
  (forall a b, R a b -> S (f a) (f b)) ->
  StronglySorted R l -> StronglySorted S (map f l).
Proof.
  intros Hf. induction 1 as [ | x l _ IH Hall ]; simpl; constructor; auto.
  apply List.Forall_forall. intros y Hy. apply in_map_iff in Hy.
  destruct Hy as (a & <- & Ha). rewrite List.Forall_forall in Hall. auto.
Qed.

Lemma sorted_app_le {A : Type} (R : A -> A -> Prop) (l1 l2 : list A) :
  StronglySorted R (l1 ++ l2) ->
  forall a b, In a l1 -> In b l2 -> R a b.
Proof.
  induction l1 as [ | x l1 IH ]; simpl; intros Hsorted a b Ha Hb;
    [ contradiction | ].
  inversion Hsorted as [ | ? ? Htail Hall ]; subst.
  destruct Ha as [<- | Ha].
  - rewrite List.Forall_forall in Hall. apply Hall. apply in_or_app. now right.
  - now apply IH.
Qed.

Lemma by_score_desc_total (a b : response) :
  by_score_desc a b = true \/ by_score_desc b a = true.
Proof. unfold by_score_desc. rewrite !Z.leb_le. lia. Qed.

Lemma by_score_desc_trans (a b c : response) :
  by_score_desc a b = true -> by_score_desc b c = true ->
  by_score_desc a c = true.
Proof. unfold by_score_desc. rewrite !Z.leb_le. lia. Qed.

Lemma by_position_total (a b : question) :
  by_position a b = true \/ by_position b a = true.
Proof. unfold by_position. rewrite !Z.leb_le. lia. Qed.

Lemma by_position_trans (a b c : question) :
  by_position a b = true -> by_position b c = true -> by_position a c = true.
Proof. unfold by_position. rewrite !Z.leb_le. lia. Qed.

(** C9.  Whatever order the engine gives to responses of equal score, the
    leaderboard has at most 5 entries, in descending order of score, each
    the name and score of a stored response; the responses left out are
    those after the fifth, and none of them has a higher score than an
    entry.  The handler returns such a list and changes nothing. *)
Theorem leaderboard_top5 (d : database) (sorted : list response) :
  ordered_by by_score_desc (responses d) sorted ->
  let rows := map entry (firstn 5 sorted) in
  (List.length rows <= 5)%nat /\
  List.length rows = Nat.min 5 (List.length (responses d)) /\
  StronglySorted (fun a b => snd b <= snd a) rows /\
  (forall e, In e rows -> exists r, In r (responses d) /\ e = entry r) /\
  (forall r e, In r (skipn 5 sorted) -> In e rows -> r_score r <= snd e) /\
  get_leaderboard d = (Json 200 (BodyLeaderboard (top5 d)), d) /\
  exists engine_order,
    ordered_by by_score_desc (responses d) engine_order /\
    top5 d = map entry (firstn 5 engine_order).
Proof.
  intros [Hperm Hsorted] rows. subst rows.
  rewrite length_map, length_firstn.
  rewrite <- (Permutation_length Hperm).
  split; [ lia | ]. split; [ reflexivity | ].
  split.
  { apply (sorted_map (fun a b => by_score_desc a b = true)).
    - intros a b Hab. unfold by_score_desc in Hab. simpl. lia.
    - now apply sorted_firstn. }
  split.
  { intros e He. apply in_map_iff in He. destruct He as (r & <- & Hr).
    exists r. split; [ | reflexivity ].
    apply (Permutation_in r (Permutation_sym Hperm)).
    rewrite <- (firstn_skipn 5 sorted). apply in_or_app. now left. }
  split.
  { intros r e Hr He. apply in_map_iff in He. destruct He as (r' & <- & Hr').
    rewrite <- (firstn_skipn 5 sorted) in Hsorted.
    pose proof (sorted_app_le _ _ _ Hsorted r' r Hr' Hr) as Hle.
    unfold by_score_desc in Hle. simpl. lia. }
  split; [ reflexivity | ].
  exists (order_by by_score_desc (responses d)). split; [ | reflexivity ].
  apply order_by_ordered.
  - apply by_score_desc_total.
  - apply by_score_desc_trans.
Qed.

Lemma leaderboard_top5_witness :
  let d := SampleBoard.seven in
  let sorted := order_by by_score_desc (responses d) in
  let rows := map entry (firstn 5 sorted) in
  ordered_by by_score_desc (responses d) sorted /\
  rows = [("b", 9); ("d", 9); ("f", 7); ("g", 5); ("c", 4)] /\
  (List.length rows <= 5)%nat /\
  List.length rows = Nat.min 5 (List.length (responses d)) /\
  StronglySorted (fun a b => snd b <= snd a) rows /\
  (forall e, In e rows -> exists r, In r (responses d) /\ e = entry r) /\
  (forall r e, In r (skipn 5 sorted) -> In e rows -> r_score r <= snd e) /\
  get_leaderboard d = (Json 200 (BodyLeaderboard (top5 d)), d) /\
  exists engine_order,
    ordered_by by_score_desc (responses d) engine_order /\
    top5 d = map entry (firstn 5 engine_order).
Proof.
  intros d sorted rows.
  assert (Hordered : ordered_by by_score_desc (responses d) sorted).
  { apply order_by_ordered;
      [ apply by_score_desc_total | apply by_score_desc_trans ]. }
  split; [ exact Hordered | ].
  split; [ reflexivity | ].
  exact (leaderboard_top5 d sorted Hordered).
Defined.

Section Analytics.

Lemma count_cons {A : Type} (f : A -> bool) (x : A) (l : list A) :
  count f (x :: l) = (if f x then 1 else 0) + count f l.
Proof. unfold count. simpl. destruct (f x); simpl List.length; lia. Qed.

Lemma count_tally (f : answer -> bool) (P : answer -> Prop)
    `{forall a, Decision (P a)} (rows : list answer) :
  (forall a, f a = true <-> P a) -> count f rows = tally P rows.
Proof.
  intros Hf. unfold count, tally. f_equal.
  induction rows as [ | a rows IH ]; [ reflexivity | ].
  simpl. rewrite filter_cons.
  destruct (f a) eqn:Hfa.
  - rewrite decide_True by now apply Hf. simpl. now rewrite IH.
  - rewrite decide_False; [ exact IH | ].
    intros HP. apply Hf in HP. congruence.
Qed.

Lemma question_is_spec (id : Z) (a : answer) :
  question_is id a = true <-> a_question_id a = NInt id.
Proof.
  unfold question_is. destruct (a_question_id a) as [z | r].
  - rewrite Z.eqb_eq. split; congruence.
  - split; discriminate.
Qed.

Lemma value_is_spec (tok : string) (a : answer) :
  value_is tok a = true <-> a_value a = Some tok.
Proof.
  unfold value_is. destruct (a_value a) as [v | ].
  - rewrite String.eqb_eq. split; congruence.
  - split; discriminate.
Qed.

Lemma value_not_null_spec (a : answer) :
  value_not_null a = true <-> a_value a <> None.
Proof.
  unfold value_not_null. destruct (a_value a); split; congruence.
Qed.

(** The three counts of one question: the accepted tokens are counted
    among the non-null values, and are all of them when the stored values
    are closed. *)
Lemma counts_bound (id : Z) (rows : list answer) :
  let yes := count (fun a => question_is id a && value_is "topp" a) rows in
  let no := count (fun a => question_is id a && value_is "flash" a) rows in
  let total := count (fun a => question_is id a && value_not_null a) rows in
  yes + no <= total /\ (Forall closed_value rows -> yes + no = total).
Proof.
  cbv zeta. induction rows as [ | a rows [IHle IHeq] ].
  - split; [ reflexivity | reflexivity ].
  - rewrite !count_cons.
    assert (Hrow :
      let y := question_is id a && value_is "topp" a in
      let n := question_is id a && value_is "flash" a in
      let t := question_is id a && value_not_null a in
      (if y then 1 else 0) + (if n then 1 else 0) <= (if t then 1 else 0) /\
      (closed_value a ->
       (if y then 1 else 0) + (if n then 1 else 0) = (if t then 1 else 0))).
    { cbv zeta. unfold value_is, value_not_null, closed_value.
      destruct (question_is id a); simpl; [ | split; [ lia | reflexivity ] ].
      destruct (a_value a) as [v | ]; [ | split; [ lia | reflexivity ] ].
      destruct (String.eqb_spec v "topp") as [-> | Htopp];
        [ simpl; split; [ lia | reflexivity ] | ].
      destruct (String.eqb_spec v "flash") as [-> | Hflash];
        [ split; [ lia | reflexivity ] | ].
      split; [ lia | ]. intros [Hv | [Hv | Hv]]; congruence. }
    cbv zeta in Hrow. destruct Hrow as [Hle Heq].
    split; [ lia | ].
    intros Hclosed. inversion Hclosed; subst.
    rewrite <- IHeq by assumption. rewrite <- Heq by assumption. lia.
Qed.

(** C8.  In every database state the analytics reply lists, for each
    question in order of position, its id and text with: total, the number
    of answer rows of that question whose value is not NULL; yes, the
    number whose value is "topp"; no, the number whose value is "flash";
    yes + no is at most total, and equal to it when every stored value is
    an accepted token or NULL.  The reply also carries the number of
    responses, and the state is unchanged. *)
Theorem analytics_counts (d : database) :
  exists stats asked,
    get_analytics d
      = (Json 200
           (BodyAnalytics stats (Z.of_nat (List.length (responses d)))), d) /\
    ordered_by by_position (questions d) asked /\
    Forall2
      (fun q st =>
         s_id st = q_id q /\ s_text st = q_text q /\
         s_total st
           = tally (fun a => a_question_id a = NInt (q_id q) /\
                             a_value a <> None) (answers d) /\
         s_yes st
           = tally (fun a => a_question_id a = NInt (q_id q) /\
                             a_value a = Some "topp") (answers d) /\
         s_no st
           = tally (fun a => a_question_id a = NInt (q_id q) /\
                             a_value a = Some "flash") (answers d) /\
         s_yes st + s_no st <= s_total st /\
         (Forall closed_value (answers d) ->
          s_yes st + s_no st = s_total st))
      asked stats.
Proof.
  exists (map (stat_of d) (order_by by_position (questions d))),
         (order_by by_position (questions d)).
  split.
  { unfold get_analytics, count. do 4 f_equal.
    induction (responses d); simpl; congruence. }
  split.
  { apply order_by_ordered;
      [ apply by_position_total | apply by_position_trans ]. }
  induction (order_by by_position (questions d)) as [ | q qs IH ]; simpl;
    constructor; [ | exact IH ].
  simpl. split; [ reflexivity | ]. split; [ reflexivity | ].
  split.
  { apply count_tally. intros a.
    rewrite andb_true_iff, question_is_spec, value_not_null_spec. tauto. }
  split.
  { apply count_tally. intros a.
    rewrite andb_true_iff, question_is_spec, value_is_spec. tauto. }
  split.
  { apply count_tally. intros a.
    rewrite andb_true_iff, question_is_spec, value_is_spec. tauto. }
  apply counts_bound.
Qed.

End Analytics.

(** ** Sessions: login, expiry and restart *)

Section Sessions.
Context `{Runtime}.

Lemma login_issues (s : SessionVariant.server) (req : request) (t : string) :
  fst (SessionVariant.login s req) = Json 200 (BodyToken t) ->
  exists p hash,
    password_given req p /\ admin (SessionVariant.db s) = Some hash /\
    bcrypt_compare p hash = true /\ t = minted req /\
    snd (SessionVariant.login s req)
    = SessionVariant.mkServer (SessionVariant.db s)
        ({[ minted req ]} ∪ SessionVariant.activeSessions s).
Proof.
  unfold SessionVariant.login, password_given.
  destruct (truthy (prop (body req) "password")) eqn:Htruthy; simpl;
    [ | discriminate ].
  destruct (admin (SessionVariant.db s)) as [hash | ]; [ | discriminate ].
  destruct (prop (body req) "password") as [[ | b | n | p | items | props ] | ];
    try discriminate.
  destruct (bcrypt_compare p hash) eqn:Hcompare; [ | discriminate ].
  simpl. intros Heq. injection Heq as <-.
  exists p, hash. repeat split; auto.
  intros ->. discriminate Htruthy.
Qed.



Lemma gate_closed_401 (s : SessionVariant.server) (req : request) :
  protected (route req) -> SessionVariant.requireAdmin s req = false ->
  SessionVariant.handle s req = (Json 401 (BodyError "Unauthorized"), s).
Proof.
  intros Hprot Hgate. unfold SessionVariant.handle, SessionVariant.guarded.
  destruct (route req); try contradiction; now rewrite Hgate.
Qed.


Lemma bearer_admitted (s : SessionVariant.server) (req : request)
    (t : string) :
  bears t req ->
  SessionVariant.requireAdmin s req
  = negb (String.eqb t "")
    && bool_decide (t ∈ SessionVariant.activeSessions s).
Proof.
  unfold bears, SessionVariant.requireAdmin. intros ->.
  now rewrite bearer_prefix_removed.
Qed.

(** X1.  What POST /api/admin/login answers: 400 when the password is
    absent or falsy, 500 when there is no admin row, 401 when bcrypt
    rejects the password, and the minted token when it accepts it.  The
    database is never touched, the session set changes only on success,
    and a token is only ever issued for a password that bcrypt accepts
    against the stored hash. *)
Theorem login_outcomes (s : SessionVariant.server) (req : request) :
  route req = POST_admin_login ->
  let out := SessionVariant.handle s req in
  SessionVariant.db (snd out) = SessionVariant.db s /\
  (password_missing req ->
   out = (Json 400 (BodyError "Password required"), s)) /\
  (~ password_missing req -> admin (SessionVariant.db s) = None ->
   out = (Json 500 (BodyError "Admin not configured"), s)) /\
  (forall p hash,
     password_given req p -> admin (SessionVariant.db s) = Some hash ->
     if bcrypt_compare p hash
     then out = (Json 200 (BodyToken (minted req)),
                 SessionVariant.mkServer (SessionVariant.db s)
                   ({[ minted req ]} ∪ SessionVariant.activeSessions s))
     else out = (Json 401 (BodyError "Invalid password"), s)) /\
  (forall t, fst out = Json 200 (BodyToken t) ->
     t = minted req /\
     exists p hash,
       password_given req p /\ admin (SessionVariant.db s) = Some hash /\
       bcrypt_compare p hash = true).
Proof.
  intros Hroute out. subst out. unfold SessionVariant.handle.
  rewrite Hroute.
  split; [ apply login_db | ].
  split.
  { unfold password_missing, SessionVariant.login. now intros ->. }
  split.
  { unfold password_missing, SessionVariant.login. intros Hgiven Hnone.
    destruct (truthy _); [ | congruence ]. simpl. now rewrite Hnone. }
  split.
  { intros p hash [Hp Hne] Hhash. unfold SessionVariant.login.
    rewrite Hp, Hhash. simpl.
    destruct (String.eqb_spec p "") as [-> | _]; [ congruence | ]. simpl.
    destruct (bcrypt_compare p hash); reflexivity. }
  intros t Ht.
  destruct (login_issues s req t Ht) as (p & hash & Hp & Hhash & Hc & -> & _).
  split; [ reflexivity | ]. exists p, hash. auto.
Qed.


(** X3.  Once the timer of a token has fired, a request that bears it is
    answered 401 on every protected route and changes nothing; the
    database and the other sessions are as before. *)
Theorem expired_token_rejected (s : SessionVariant.server) (t : string)
    (req : request) :
  bears t req -> protected (route req) ->
  let s' := SessionVariant.expire t s in
  SessionVariant.handle s' req = (Json 401 (BodyError "Unauthorized"), s') /\
  SessionVariant.db s' = SessionVariant.db s /\
  (forall other t', t' <> t -> bears t' other ->
     SessionVariant.requireAdmin s' other
     = SessionVariant.requireAdmin s other).
Proof.
  intros Hbears Hprot s'. subst s'.
  split; [ | split; [ reflexivity | ] ].
  - apply gate_closed_401; [ exact Hprot | ].
    rewrite (bearer_admitted _ req t Hbears).
    apply andb_false_iff. right. apply bool_decide_eq_false.
    unfold SessionVariant.expire. simpl.
    rewrite elem_of_difference, elem_of_singleton. tauto.
  - intros other t' Hne Hother.
    rewrite !(bearer_admitted _ other t' Hother). f_equal.
    apply bool_decide_ext. unfold SessionVariant.expire. simpl.
    rewrite elem_of_difference, elem_of_singleton. tauto.
Qed.

End Sessions.

Lemma sample_password_given :
  password_given SampleSessions.good_login "s3cret".
Proof. split; [ reflexivity | discriminate ]. Defined.

Lemma login_outcomes_witness :
  route SampleSessions.good_login = POST_admin_login /\
  password_given SampleSessions.good_login "s3cret" /\
  admin (SessionVariant.db SampleSessions.booted) = Some "hash:s3cret" /\
  @SessionVariant.handle Sample.runtime SampleSessions.booted
     SampleSessions.good_login
    = (Json 200 (BodyToken "t0k3n"),
       SessionVariant.mkServer (SessionVariant.db SampleSessions.booted)
         ({[ "t0k3n" ]} ∪ SessionVariant.activeSessions SampleSessions.booted))
  /\
  password_missing SampleSessions.empty_login /\
  @SessionVariant.handle Sample.runtime SampleSessions.booted
     SampleSessions.empty_login
    = (Json 400 (BodyError "Password required"), SampleSessions.booted).
Proof.
  split; [ reflexivity | ].
  split; [ exact sample_password_given | ].
  split; [ reflexivity | ].
  split.
  - exact (proj1 (proj2 (proj2 (proj2
             (@login_outcomes Sample.runtime SampleSessions.booted
                SampleSessions.good_login eq_refl))))
             "s3cret" "hash:s3cret" sample_password_given eq_refl).
  - split; [ reflexivity | ].
    exact (proj1 (proj2
             (@login_outcomes Sample.runtime SampleSessions.booted
                SampleSessions.empty_login eq_refl)) eq_refl).
Defined.


Lemma expired_token_rejected_witness :
  let s' := SessionVariant.expire "k3y" SampleAdmin.server in
  let req := SampleAdmin.admin_request (DELETE_response "1") (JObject []) in
  bears "k3y" req /\ protected (route req) /\
  @SessionVariant.handle Sample.runtime s' req
    = (Json 401 (BodyError "Unauthorized"), s') /\
  SessionVariant.db s' = SampleAdmin.stocked /\
  (forall other t', t' <> "k3y" -> bears t' other ->
     SessionVariant.requireAdmin s' other
     = SessionVariant.requireAdmin SampleAdmin.server other).
Proof.
  intros s' req.
  split; [ reflexivity | ].
  split; [ exact I | ].
  exact (@expired_token_rejected Sample.runtime SampleAdmin.server "k3y" req
           eq_refl I).
Defined.

(** ** Boot *)

Section Boot.
Context `{Runtime}.

Lemma count_all {A : Type} (l : list A) :
  count (fun _ => true) l = Z.of_nat (List.length l).
Proof.
  unfold count. f_equal. induction l; simpl; congruence.
Qed.

Lemma seed_from_tables (i : Z) (texts : list string) (now : string)
    (d : database) :
  responses (seed_from i texts now d) = responses d /\
  admin (seed_from i texts now d) = admin d /\
  (List.length (questions (seed_from i texts now d))
   = List.length (questions d) + List.length texts)%nat.
Proof.
  revert i d. induction texts as [ | text rest IH ]; intros i d;
    cbn [seed_from].
  - repeat split. simpl. lia.
  - destruct (IH (i + 1) (snd (insert_question text i now d)))
      as (Hr & Ha & Hlen).
    rewrite Hr, Ha, Hlen. simpl. rewrite length_app. simpl.
    repeat split. lia.
Qed.

Lemma seed_questions_tables (now : string) (d : database) :
  responses (seed_questions now d) = responses d /\
  admin (seed_questions now d) = admin d /\
  questions (seed_questions now d) <> [] /\
  (questions d <> [] -> seed_questions now d = d).
Proof.
  unfold seed_questions. rewrite count_all.
  destruct (Z.eqb_spec (Z.of_nat (List.length (questions d))) 0)
    as [Hzero | Hsome].
  - destruct (seed_from_tables 0 defaults now d) as (Hr & Ha & Hlen).
    assert (Hnil : questions d = []).
    { destruct (questions d); [ reflexivity | simpl in Hzero; lia ]. }
    repeat split; auto; try congruence.
    intros Hseeded. rewrite Hseeded, Hnil in Hlen. discriminate Hlen.
  - repeat split; auto. intros Hnil. rewrite Hnil in Hsome. now apply Hsome.
Qed.

(** X4.  A restart forgets every session: on the server that [start]
    returns, a request to a protected route is answered 401 and changes
    nothing, whatever header it carries. *)
Theorem restart_ends_sessions (file : option database) (hash now : string)
    (req : request) :
  protected (route req) ->
  let s := SessionVariant.start file hash now in
  SessionVariant.requireAdmin s req = false /\
  SessionVariant.handle s req = (Json 401 (BodyError "Unauthorized"), s).
Proof.
  intros Hprot s.
  assert (Hgate : SessionVariant.requireAdmin s req = false).
  { unfold SessionVariant.requireAdmin.
    destruct (authorization req) as [header | ]; [ | reflexivity ].
    apply andb_false_iff. right. apply bool_decide_eq_false.
    subst s. simpl. apply not_elem_of_empty. }
  split; [ exact Hgate | now apply gate_closed_401 ].
Qed.

(** X5.  Boot fills in only what is missing.  It leaves responses and
    answers alone, keeps an existing admin row and a non-empty question
    table as they are, and otherwise stores the given hash and seeds the
    five default questions with ids 1-5 and positions 0-4 on a fresh
    database; afterwards there are an admin row and at least one question,
    so booting again on the result changes nothing, in both variants. *)
Theorem boot_seeds_once (file : option database) (hash now : string) :
  let d0 := match file with Some d => d | None => empty_database end in
  let d := SessionVariant.db (SessionVariant.start file hash now) in
  let d' := StaticVariant.start file now in
  responses d = responses d0 /\ answers d = answers d0 /\
  responses d' = responses d0 /\ answers d' = answers d0 /\
  admin d = match admin d0 with Some h => Some h | None => Some hash end /\
  questions d <> [] /\ questions d' <> [] /\
  (questions d0 <> [] ->
   questions d = questions d0 /\ questions d' = questions d0) /\
  (file = None ->
   map view (questions d)
   = [(1, "Route 1: Red Wall", 0); (2, "Route 2: Blue Corner", 1);
      (3, "Route 3: Yellow Overhang", 2); (4, "Route 4: Green Slab", 3);
      (5, "Route 5: Black Crack", 4)] /\
   questions d' = questions d) /\
  (forall hash' now',
     SessionVariant.db (SessionVariant.start (Some d) hash' now') = d /\
     StaticVariant.start (Some d') now' = d').
Proof.
  intros d0 d d'. subst d d'. unfold SessionVariant.start, StaticVariant.start.
  fold d0. simpl.
  set (d1 := match admin d0 with
             | Some _ => d0
             | None => mkDatabase (questions d0) (responses d0) (answers d0)
                         (Some hash) (seq_questions d0) (seq_responses d0)
                         (seq_answers d0)
             end).
  assert (Hd1 : responses d1 = responses d0 /\ answers d1 = answers d0 /\
                questions d1 = questions d0 /\
                admin d1 = match admin d0 with
                           | Some h => Some h
                           | None => Some hash
                           end).
  { subst d1. destruct (admin d0) eqn:Hadm; simpl; auto. }
  destruct Hd1 as (Hr1 & Ha1 & Hq1 & Hadm1).
  destruct (seed_questions_tables now d1) as (Hr & Hadm & Hne & Hkeep).
  destruct (seed_questions_tables now d0) as (Hr' & _ & Hne' & Hkeep').
  assert (Hagain : forall hash' now',
            seed_questions now'
              match admin (seed_questions now d1) with
              | Some _ => seed_questions now d1
              | None =>
                  mkDatabase (questions (seed_questions now d1))
                    (responses (seed_questions now d1))
                    (answers (seed_questions now d1)) (Some hash')
                    (seq_questions (seed_questions now d1))
                    (seq_responses (seed_questions now d1))
                    (seq_answers (seed_questions now d1))
              end
            = seed_questions now d1 /\
            seed_questions now' (seed_questions now d0)
            = seed_questions now d0).
  { intros hash' now'. split.
    - assert (Hsome : admin (seed_questions now d1) <> None).
      { rewrite Hadm, Hadm1. destruct (admin d0); discriminate. }
      destruct (admin (seed_questions now d1)); [ | congruence ].
      destruct (seed_questions_tables now' (seed_questions now d1))
        as (_ & _ & _ & Hkeep2).
      now apply Hkeep2.
    - destruct (seed_questions_tables now' (seed_questions now d0))
        as (_ & _ & _ & Hkeep2).
      now apply Hkeep2. }
  split; [ congruence | ].
  split; [ rewrite seed_questions_answers; congruence | ].
  split; [ congruence | ].
  split; [ now rewrite seed_questions_answers | ].
  split; [ congruence | ].
  split; [ exact Hne | ].
  split; [ exact Hne' | ].
  split.
  { intros Hq0. rewrite Hkeep by congruence. rewrite Hkeep' by exact Hq0.
    auto. }
  split; [ | exact Hagain ].
  intros ->. subst d0 d1. simpl. split; reflexivity.
Qed.

End Boot.

Lemma restart_ends_sessions_witness :
  let s := SessionVariant.start (Some SampleAdmin.stocked) "hash:s3cret"
             SampleSessions.at_nine in
  protected (route SampleSessions.list_responses) /\
  SessionVariant.requireAdmin s SampleSessions.list_responses = false /\
  @SessionVariant.handle Sample.runtime s SampleSessions.list_responses
    = (Json 401 (BodyError "Unauthorized"), s).
Proof.
  intros s. split; [ exact I | ].
  exact (@restart_ends_sessions Sample.runtime (Some SampleAdmin.stocked)
           "hash:s3cret" SampleSessions.at_nine
           SampleSessions.list_responses I).
Defined.

(** ** Question management beyond the claims *)

Section Questions.
Context `{Runtime}.

(** X6.  The text check of question creation and update: a text that is
    absent, null or white space only is answered 400, and a text that is
    not a string makes the handler throw; in both cases nothing is
    written. *)
Theorem question_text_checked (req : request) (d : database) (id : string) :
  (text_missing req ->
   post_question req d = (Json 400 (BodyError "text is required"), d) /\
   put_question id req d = (Json 400 (BodyError "text is required"), d)) /\
  (text_not_string req ->
   post_question req d = (Threw, d) /\ put_question id req d = (Threw, d)).
Proof.
  unfold post_question, put_question. split.
  - intros [Hnone | [Hnull | (raw & Hraw & Hblank)]].
    + now rewrite Hnone.
    + now rewrite Hnull.
    + rewrite Hraw. simpl. now rewrite Hblank.
  - intros (v & Hv & Hnull & Hstring). rewrite Hv.
    destruct v as [ | b | n | raw | items | props ]; try (split; reflexivity).
    + congruence.
    + exfalso. now apply (Hstring raw).
Qed.

(** X7.  An update with an accepted text replaces the text of the
    questions whose id the parameter matches and nothing else: every
    question keeps its place, id, position and creation time, the others
    keep their text, and the rest of the database is untouched. *)
Theorem question_text_updated (id : string) (req : request) (d : database)
    (text : string) :
  text_accepted req text ->
  let out := put_question id req d in
  fst out = Json 200 BodyOk /\
  Forall2
    (fun q q' =>
       q_id q' = q_id q /\ q_position q' = q_position q /\
       q_created_at q' = q_created_at q /\
       q_text q' = if sql_text_eq_int id (q_id q) then text else q_text q)
    (questions d) (questions (snd out)) /\
  responses (snd out) = responses d /\
  answers (snd out) = answers d /\
  admin (snd out) = admin d /\
  (seq_questions (snd out), seq_responses (snd out), seq_answers (snd out))
  = (seq_questions d, seq_responses d, seq_answers d).
Proof.
  intros Htext. cbv zeta. rewrite (put_question_accepted id req d text Htext).
  simpl. split; [ reflexivity | ].
  split; [ | repeat split ].
  induction (questions d) as [ | q qs IH ]; simpl; constructor; auto.
  destruct (sql_text_eq_int id (q_id q)); simpl; auto.
Qed.

Lemma insert_by_last {A : Type} (le : A -> A -> bool) (q x : A)
    (l : list A) :
  le q x = true ->
  insert_by le q (l ++ [x]) = (insert_by le q l ++ [x])%list.
Proof.
  intros Hqx. induction l as [ | y r IH ]; simpl.
  - now rewrite Hqx.
  - destruct (le q y); [ reflexivity | ]. now rewrite IH.
Qed.

Lemma order_by_last {A : Type} (le : A -> A -> bool) (x : A) (l : list A) :
  Forall (fun y => le y x = true) l ->
  order_by le (l ++ [x]) = (order_by le l ++ [x])%list.
Proof.
  unfold order_by. induction 1 as [ | y l Hy _ IH ]; simpl.
  - reflexivity.
  - rewrite IH. now apply insert_by_last.
Qed.

Lemma sorted_prefix {A : Type} (R : A -> A -> Prop) (l1 l2 : list A) :
  StronglySorted R (l1 ++ l2) -> StronglySorted R l1.
Proof.
  induction l1 as [ | x l1 IH ]; simpl; intros Hsorted; [ constructor | ].
  inversion Hsorted as [ | ? ? Htail Hall ]; subst.
  constructor; [ now apply IH | ].
  apply Forall_app in Hall. tauto.
Qed.

(** In any order the engine may return, a row that sorts strictly after
    all the others comes last. *)
Lemma ordered_by_last {A : Type} (le : A -> A -> bool) (x : A)
    (l out : list A) :
  Forall (fun y => le x y = false) l ->
  ordered_by le (l ++ [x]) out ->
  exists out', out = (out' ++ [x])%list /\ ordered_by le l out'.
Proof.
  intros Hstrict [Hperm Hsorted].
  assert (Hin : In x out).
  { apply (Permutation_in x Hperm). apply in_or_app. right. now left. }
  destruct (in_split x out Hin) as (l1 & l2 & ->).
  assert (Hl2 : l2 = []).
  { destruct l2 as [ | y l2 ]; [ reflexivity | exfalso ].
    assert (Hxy : le x y = true).
    { apply (sorted_app_le (fun a b => le a b = true) (l1 ++ [x])
               (y :: l2)).
      - now rewrite <- app_assoc.
      - apply in_or_app. right. now left.
      - now left. }
    assert (Hy : In y l).
    { apply Permutation_sym in Hperm.
      assert (Hperm' : Permutation (l1 ++ x :: y :: l2) (x :: l)).
      { eapply perm_trans; [ exact Hperm | ].
        apply Permutation_sym, Permutation_cons_append. }
      apply Permutation_sym, Permutation_cons_app_inv in Hperm'.
      apply (Permutation_in y (Permutation_sym Hperm')).
      apply in_or_app. right. now left. }
    rewrite List.Forall_forall in Hstrict. rewrite (Hstrict y Hy) in Hxy.
    discriminate. }
  subst l2. exists l1. split; [ reflexivity | ].
  split.
  - now apply Permutation_app_inv_r in Hperm.
  - now apply sorted_prefix in Hsorted.
Qed.

(** X8.  GET /api/questions lists every stored question once, in
    ascending position; right after a creation the new question is the
    last one listed, in whatever order the engine breaks ties, and the
    listing before it is a listing of the old table. *)
Theorem created_question_listed_last (req : request) (d : database)
    (text : string) :
  text_accepted req text ->
  let d' := snd (post_question req d) in
  exists new,
    questions d' = (questions d ++ [new])%list /\
    fst (post_question req d)
      = Json 200 (BodyQuestion (q_id new) text (q_position new)) /\
    q_text new = text /\
    (forall listed', ordered_by by_position (questions d') listed' ->
       exists listed, listed' = (listed ++ [new])%list /\
                      ordered_by by_position (questions d) listed) /\
    (exists listed,
       ordered_by by_position (questions d) listed /\
       get_questions d = (Json 200 (BodyQuestions (map view listed)), d) /\
       get_questions d'
       = (Json 200 (BodyQuestions (map view listed ++ [view new])), d')).
Proof.
  intros Htext. cbv zeta.
  rewrite (post_question_accepted req d text Htext).
  unfold insert_question. cbv zeta. cbn [fst snd questions].
  set (new := mkQuestion _ _ _ _). exists new.
  assert (Hafter : Forall (fun q => by_position q new = true
                                    /\ by_position new q = false)
                     (questions d)).
  { destruct (max_position_spec (questions d)) as [[Hnil _] | [_ Hmax]].
    - destruct (questions d); [ constructor | discriminate ].
    - rewrite List.Forall_forall in *. intros q Hq.
      assert (Hle : q_position q <= max_position (questions d)).
      { apply Hmax. now apply in_map. }
      unfold by_position, new. simpl. split.
      + apply Z.leb_le. lia.
      + apply Z.leb_gt. lia. }
  split; [ reflexivity | ]. split; [ reflexivity | ].
  split; [ reflexivity | ].
  split.
  - intros listed' Hlisted.
    apply (ordered_by_last by_position new (questions d) listed').
    + eapply List.Forall_impl; [ | exact Hafter ]. simpl. tauto.
    + exact Hlisted.
  - exists (order_by by_position (questions d)). split.
    + apply order_by_ordered;
        [ apply by_position_total | apply by_position_trans ].
    + split; [ reflexivity | ].
      unfold get_questions. cbn [questions].
      rewrite order_by_last.
      * now rewrite map_app.
      * eapply List.Forall_impl; [ | exact Hafter ]. simpl. tauto.
Qed.

End Questions.

Lemma question_text_checked_witness :
  text_missing SampleSessions.blank_text /\
  post_question SampleSessions.blank_text SampleAdmin.stocked
    = (Json 400 (BodyError "text is required"), SampleAdmin.stocked) /\
  @put_question Sample.runtime "1" SampleSessions.blank_text
     SampleAdmin.stocked
    = (Json 400 (BodyError "text is required"), SampleAdmin.stocked) /\
  text_not_string SampleSessions.number_text /\
  post_question SampleSessions.number_text SampleAdmin.stocked
    = (Threw, SampleAdmin.stocked) /\
  @put_question Sample.runtime "1" SampleSessions.number_text
     SampleAdmin.stocked
    = (Threw, SampleAdmin.stocked).
Proof.
  assert (Hblank : text_missing SampleSessions.blank_text).
  { right. right. exists "  ". split; reflexivity. }
  assert (Hnumber : text_not_string SampleSessions.number_text).
  { exists (JNumber (NInt 7)). repeat split; discriminate. }
  destruct (@question_text_checked Sample.runtime SampleSessions.blank_text
              SampleAdmin.stocked "1") as [Hmissing _].
  destruct (@question_text_checked Sample.runtime SampleSessions.number_text
              SampleAdmin.stocked "1") as [_ Hthrows].
  split; [ exact Hblank | ].
  split; [ exact (proj1 (Hmissing Hblank)) | ].
  split; [ exact (proj2 (Hmissing Hblank)) | ].
  split; [ exact Hnumber | ].
  split; [ exact (proj1 (Hthrows Hnumber)) | exact (proj2 (Hthrows Hnumber)) ].
Defined.

Lemma question_text_updated_witness :
  let req := SampleAdmin.admin_request (PUT_question "2")
               SampleAdmin.new_text in
  let out := @put_question Sample.runtime "2" req SampleAdmin.stocked in
  text_accepted req "Route 6" /\
  fst out = Json 200 BodyOk /\
  questions (snd out)
    = [mkQuestion 1 "Route 1: Red Wall" 0 SampleAdmin.at_noon;
       mkQuestion 2 "Route 6" 4 SampleAdmin.at_noon] /\
  Forall2
    (fun q q' =>
       q_id q' = q_id q /\ q_position q' = q_position q /\
       q_created_at q' = q_created_at q /\
       q_text q' = if Sample.text_eq_int "2" (q_id q)
                   then "Route 6" else q_text q)
    (questions SampleAdmin.stocked) (questions (snd out)) /\
  responses (snd out) = responses SampleAdmin.stocked /\
  answers (snd out) = answers SampleAdmin.stocked.
Proof.
  intros req out.
  assert (Htext : text_accepted req "Route 6")
    by exact (sample_text_accepted req eq_refl).
  destruct (@question_text_updated Sample.runtime "2" req SampleAdmin.stocked
              "Route 6" Htext) as (Hreply & Hqs & Hr & Ha & _).
  split; [ exact Htext | ].
  split; [ exact Hreply | ].
  split; [ reflexivity | ].
  split; [ exact Hqs | ].
  split; [ exact Hr | exact Ha ].
Defined.

Lemma created_question_listed_last_witness :
  let req := SampleAdmin.admin_request POST_questions SampleAdmin.new_text in
  let d' := snd (post_question req SampleAdmin.stocked) in
  text_accepted req "Route 6" /\
  get_questions d'
    = (Json 200
         (BodyQuestions [(1, "Route 1: Red Wall", 0);
                         (2, "Route 2: Blue Corner", 4);
                         (3, "Route 6", 5)]), d') /\
  exists new,
    questions d' = (questions SampleAdmin.stocked ++ [new])%list /\
    fst (post_question req SampleAdmin.stocked)
      = Json 200 (BodyQuestion (q_id new) "Route 6" (q_position new)) /\
    q_text new = "Route 6" /\
    (forall listed', ordered_by by_position (questions d') listed' ->
       exists listed,
         listed' = (listed ++ [new])%list /\
         ordered_by by_position (questions SampleAdmin.stocked) listed) /\
    (exists listed,
       ordered_by by_position (questions SampleAdmin.stocked) listed /\
       get_questions SampleAdmin.stocked
       = (Json 200 (BodyQuestions (map view listed)), SampleAdmin.stocked) /\
       get_questions d'
       = (Json 200 (BodyQuestions (map view listed ++ [view new])), d')).
Proof.
  intros req d'.
  assert (Htext : text_accepted req "Route 6")
    by exact (sample_text_accepted req eq_refl).
  split; [ exact Htext | ].
  split; [ reflexivity | ].
  exact (created_question_listed_last req SampleAdmin.stocked "Route 6"
           Htext).
Defined.

(** ** What the stored rows always satisfy *)

Section Invariants.
Context `{Runtime}.

Lemma changes_one (d d' : database) : change d d' -> changes d d'.
Proof. intros Hc. eapply changes_then; [ exact Hc | apply changes_none ]. Qed.

Lemma changes_trans (d1 d2 d3 : database) :
  changes d1 d2 -> changes d2 d3 -> changes d1 d3.
Proof.
  induction 1 as [ | d d1 d2 Hc _ IH ]; intros H23; [ exact H23 | ].
  eapply changes_then; [ exact Hc | now apply IH ].
Qed.

Lemma reward_nonneg (val : json) : 0 <= reward val.
Proof.
  destruct val as [ | b | n | s | items | props ]; simpl; try lia.
  destruct (String.eqb s "topp"); [ lia | ].
  destruct (String.eqb s "flash"); lia.
Qed.

Lemma score_of_nonneg (ans : json) : 0 <= score_of ans.
Proof.
  rewrite score_of_sum.
  induction (Object_values ans) as [ | v vs IH ]; simpl; [ lia | ].
  pose proof (reward_nonneg v). lia.
Qed.

Lemma insert_answers_changes (responseId : Z)
    (entries : list (string * json)) (d : database) :
  In responseId (map r_id (responses d)) ->
  changes d (snd (insert_answers responseId entries d)).
Proof.
  revert d. induction entries as [ | [qid val] rest IH ]; intros d Hin;
    simpl.
  - apply changes_none.
  - destruct (ToNumber qid) as [n | ]; [ | apply changes_none ].
    eapply changes_then.
    + apply (insert_answer_change responseId n (safeVal val) d Hin).
    + apply IH. exact Hin.
Qed.

Lemma post_response_changes (req : request) (d : database) :
  changes d (snd (post_response req d)).
Proof.
  unfold post_response.
  destruct (optional_trim _) as [[name | ] | ]; simpl;
    try apply changes_none.
  destruct (String.eqb_spec name "") as [-> | Hname];
    [ apply changes_none | ].
  destruct (negb _ || negb _); [ apply changes_none | ].
  set (ans := match prop (body req) "answers" with
              | Some v => v
              | None => JNull
              end).
  pose proof (insert_response_change name (score_of ans) (now req) d Hname
                (score_of_nonneg ans)) as Hresponse.
  unfold insert_response in *. cbv zeta in *. cbn [snd] in Hresponse.
  match goal with
  | |- context [insert_answers ?r ?e ?d1] =>
      assert (Hanswers : changes d1 (snd (insert_answers r e d1)));
      [ apply insert_answers_changes; cbn [responses];
        rewrite map_app; apply in_or_app; right; now left
      | destruct (insert_answers r e d1) as [[u | ] d2]; cbn [snd] in *;
        (eapply changes_then; [ exact Hresponse | exact Hanswers ]) ]
  end.
Qed.

Lemma post_question_changes (req : request) (d : database) :
  changes d (snd (post_question req d)).
Proof.
  unfold post_question.
  destruct (optional_trim _) as [[text | ] | ]; simpl;
    try apply changes_none.
  destruct (String.eqb_spec text "") as [-> | Htext];
    [ apply changes_none | ].
  apply changes_one.
  apply (insert_question_change text (max_position (questions d) + 1)
           (now req) d Htext).
  - destruct (max_position_spec (questions d)) as [[Hnil _] | [_ Hmax]].
    + rewrite Hnil. constructor.
    + eapply List.Forall_impl; [ | exact Hmax ]. simpl. lia.
  - intros Hnil. unfold max_position. rewrite Hnil. simpl. lia.
Qed.

Lemma put_question_changes (id : string) (req : request) (d : database) :
  changes d (snd (put_question id req d)).
Proof.
  unfold put_question.
  destruct (optional_trim _) as [[text | ] | ]; simpl;
    try apply changes_none.
  destruct (String.eqb_spec text "") as [-> | Htext];
    [ apply changes_none | ].
  apply changes_one. now apply update_question_change.
Qed.

Ltac changes_step :=
  first [ apply changes_none
        | rewrite login_db; apply changes_none
        | apply post_question_changes
        | apply put_question_changes
        | apply post_response_changes
        | apply changes_one; apply delete_question_change
        | apply changes_one; apply delete_response_change ].

Lemma session_handle_changes (s : SessionVariant.server) (req : request) :
  changes (SessionVariant.db s)
    (SessionVariant.db (snd (SessionVariant.handle s req))).
Proof.
  unfold SessionVariant.handle.
  destruct (route req);
    unfold SessionVariant.guarded, SessionVariant.with_db;
    try destruct (SessionVariant.requireAdmin s req);
    cbn [fst snd SessionVariant.db delete_question delete_response
         get_questions get_leaderboard get_responses get_analytics];
    changes_step.
Qed.

Lemma static_handle_changes (password : string) (d : database)
    (req : request) :
  changes d (snd (StaticVariant.handle password d req)).
Proof.
  unfold StaticVariant.handle.
  destruct (route req);
    unfold StaticVariant.guarded;
    try destruct (StaticVariant.requireAdmin password req);
    cbn [fst snd delete_question delete_response
         get_questions get_leaderboard get_responses get_analytics];
    changes_step.
Qed.

Lemma seed_from_changes (i : Z) (texts : list string) (now : string)
    (d : database) :
  Forall (fun text => text <> "") texts ->
  Forall (fun p => p < i) (map q_position (questions d)) ->
  (questions d = [] -> 0 <= i) ->
  changes d (seed_from i texts now d).
Proof.
  intros Htexts. revert i d.
  induction Htexts as [ | text rest Htext _ IH ]; intros i d Hbelow Hzero;
    cbn [seed_from].
  - apply changes_none.
  - eapply changes_then.
    + apply (insert_question_change text i now d Htext Hbelow Hzero).
    + apply IH.
      * cbn [snd insert_question questions]. rewrite map_app.
        apply Forall_app. split.
        -- eapply List.Forall_impl; [ | exact Hbelow ]. simpl. lia.
        -- constructor; [ simpl; lia | constructor ].
      * cbn [snd insert_question questions].
        intros Hnil. destruct (questions d); discriminate Hnil.
Qed.

Lemma seed_questions_changes (now : string) (d : database) :
  changes d (seed_questions now d).
Proof.
  unfold seed_questions. rewrite count_all.
  destruct (Z.eqb_spec (Z.of_nat (List.length (questions d))) 0)
    as [Hzero | _]; [ | apply changes_none ].
  assert (Hnil : questions d = []).
  { destruct (questions d); [ reflexivity | simpl in Hzero; lia ]. }
  apply seed_from_changes.
  - repeat constructor; discriminate.
  - rewrite Hnil. constructor.
  - lia.
Qed.

Lemma operation_changes (d d' : database) : operation d d' -> changes d d'.
Proof.
  intros Hop. destruct Hop.
  - apply session_handle_changes.
  - apply static_handle_changes.
  - unfold SessionVariant.start. cbn [SessionVariant.db].
    destruct (admin d).
    + apply seed_questions_changes.
    + eapply changes_then; [ apply (insert_admin_change hash d) | ].
      apply seed_questions_changes.
  - apply seed_questions_changes.
Qed.

(** An invariant of the empty database that every change keeps holds in
    every reachable state. *)
Lemma reachable_invariant (P : database -> Prop) :
  P empty_database ->
  (forall d d', change d d' -> P d -> P d') ->
  forall d, reachable d -> P d.
Proof.
  intros Hempty Hkeep d Hreach.
  induction Hreach as [ | d d' _ IH Hop ]; [ exact Hempty | ].
  apply operation_changes in Hop.
  induction Hop as [ | d d1 d2 Hc _ IHc ]; [ exact IH | ].
  apply IHc. now apply (Hkeep d d1).
Qed.

End Invariants.

Lemma NoDup_snoc {A : Type} (l : list A) (x : A) :
  List.NoDup l -> ~ In x l -> List.NoDup (l ++ [x]).
Proof.
  intros Hl Hx. apply (Permutation_NoDup (Permutation_cons_append l x)).
  now constructor.
Qed.

Lemma NoDup_map_filter {A B : Type} (f : A -> B) (g : A -> bool)
    (l : list A) :
  List.NoDup (map f l) -> List.NoDup (map f (List.filter g l)).
Proof.
  induction l as [ | x l IH ]; simpl; intros Hl; [ constructor | ].
  inversion Hl as [ | ? ? Hx Hrest ]; subst.
  destruct (g x); simpl; [ | now apply IH ].
  constructor; [ | now apply IH ].
  intros Hin. apply Hx. apply in_map_iff in Hin.
  destruct Hin as (y & Hy & Hyin). apply filter_In in Hyin.
  apply in_map_iff. exists y. tauto.
Qed.

Lemma Forall_map_filter {A B : Type} (P : B -> Prop) (f : A -> B)
    (g : A -> bool) (l : list A) :
  Forall P (map f l) -> Forall P (map f (List.filter g l)).
Proof.
  rewrite !List.Forall_forall. intros Hl y Hy. apply Hl.
  apply in_map_iff in Hy. destruct Hy as (x & <- & Hx).
  apply filter_In in Hx. apply in_map. tauto.
Qed.

Lemma max_bounds (ids : list Z) :
  Forall (fun i => i <= fold_right Z.max 0 ids) ids.
Proof.
  induction ids as [ | i ids IH ]; simpl; constructor; [ lia | ].
  eapply List.Forall_impl; [ | exact IH ]. simpl. lia.
Qed.

(** A row that takes the next rowid keeps the ids of its table distinct
    and below the counter, which becomes that rowid. *)
Lemma issue_keeps (ids : list Z) (seq : Z) :
  List.NoDup ids /\ Forall (fun i => i <= seq) ids ->
  List.NoDup (ids ++ [next_rowid seq ids]) /\
  Forall (fun i => i <= next_rowid seq ids) (ids ++ [next_rowid seq ids]).
Proof.
  intros [Hnodup Hbound]. pose proof (max_bounds ids) as Hmax.
  unfold next_rowid. split.
  - apply NoDup_snoc; [ exact Hnodup | ].
    intros Hin. rewrite List.Forall_forall in Hmax.
    specialize (Hmax _ Hin). lia.
  - apply Forall_app. split.
    + eapply List.Forall_impl; [ | exact Hbound ]. simpl. lia.
    + constructor; [ lia | constructor ].
Qed.

Lemma filter_keeps {A : Type} (f : A -> Z) (g : A -> bool) (l : list A)
    (seq : Z) :
  List.NoDup (map f l) /\ Forall (fun i => i <= seq) (map f l) ->
  List.NoDup (map f (List.filter g l)) /\
  Forall (fun i => i <= seq) (map f (List.filter g l)).
Proof.
  intros [Hnodup Hbound].
  split; [ now apply NoDup_map_filter | now apply Forall_map_filter ].
Qed.

Section Kept.
Context `{Runtime}.

Lemma updated_ids (text id : string) (qs : list question) :
  map q_id
    (map (fun q => if sql_text_eq_int id (q_id q)
                   then mkQuestion (q_id q) text (q_position q)
                          (q_created_at q)
                   else q) qs)
  = map q_id qs /\
  map q_position
    (map (fun q => if sql_text_eq_int id (q_id q)
                   then mkQuestion (q_id q) text (q_position q)
                          (q_created_at q)
                   else q) qs)
  = map q_position qs.
Proof.
  induction qs as [ | q qs [IHid IHpos] ]; simpl; [ split; reflexivity | ].
  rewrite IHid, IHpos. destruct (sql_text_eq_int id (q_id q)); auto.
Qed.

Lemma change_keeps_ids (d d' : database) :
  change d d' -> ids_issued_once d -> ids_issued_once d'.
Proof.
  unfold ids_issued_once.
  intros Hc (Hq & Hr & Ha).
  destruct Hc; cbn [snd insert_question insert_response insert_answer
    update_question_text delete_question_rows delete_response_row
    delete_answers_of insert_admin questions responses answers
    seq_questions seq_responses seq_answers];
    (split; [ | split ]);
    first [ assumption
          | rewrite map_app; cbn [map q_id r_id a_id];
            apply issue_keeps; assumption
          | apply filter_keeps; assumption
          | rewrite (proj1 (updated_ids text id (questions d)));
            assumption ].
Qed.

Lemma change_keeps_owners (d d' : database) :
  change d d' -> answers_owned d -> answers_owned d'.
Proof.
  unfold answers_owned. intros Hc Hd.
  destruct Hc; cbn [snd insert_question insert_response insert_answer
    update_question_text delete_question_rows delete_response_row
    delete_answers_of insert_admin questions responses answers];
    try exact Hd.
  - eapply List.Forall_impl; [ | exact Hd ].
    intros a (r & Hr & Hid). exists r. split; [ | exact Hid ].
    apply in_or_app. now left.
  - apply Forall_app. split; [ exact Hd | ].
    constructor; [ | constructor ]. simpl.
    match goal with
    | Hin : In _ (map r_id _) |- _ =>
        apply in_map_iff in Hin; destruct Hin as (r & Hid & Hr)
    end.
    exists r. auto.
  - rewrite List.Forall_forall in *. intros a Ha.
    apply filter_In in Ha. destruct Ha as [Ha Hkeep].
    destruct (Hd a Ha) as (r & Hr & Hid).
    exists r. split; [ | exact Hid ].
    apply filter_In. split; [ exact Hr | ]. now rewrite Hid.
Qed.

Lemma change_keeps_questions (d d' : database) :
  change d d' -> questions_sound d -> questions_sound d'.
Proof.
  unfold questions_sound. intros Hc [Hall Hnodup].
  destruct Hc; cbn [snd insert_question insert_response insert_answer
    update_question_text delete_question_rows delete_response_row
    delete_answers_of insert_admin questions];
    try (split; assumption).
  - match goal with
    | Hbelow : Forall _ (map q_position _), Hzero : _ -> 0 <= _ |- _ =>
        rename Hbelow into Hlow; rename Hzero into Hfirst
    end.
    split.
    + apply Forall_app. split; [ exact Hall | ].
      constructor; [ | constructor ]. simpl. split; [ assumption | ].
      destruct (questions d) as [ | q qs ]; [ now apply Hfirst | ].
      inversion Hall as [ | ? ? [_ Hq] _ ]; subst.
      inversion Hlow; subst. lia.
    + rewrite map_app. apply NoDup_snoc; [ exact Hnodup | ].
      simpl. intros Hin. rewrite List.Forall_forall in Hlow.
      specialize (Hlow _ Hin). lia.
  - split.
    + clear Hnodup. induction Hall as [ | q qs [Hq Hp] _ IH ]; simpl;
        constructor; auto.
      destruct (sql_text_eq_int id (q_id q)); simpl; auto.
    + now rewrite (proj2 (updated_ids text id (questions d))).
  - split.
    + rewrite List.Forall_forall in *. intros q Hq.
      apply filter_In in Hq. apply Hall. tauto.
    + now apply NoDup_map_filter.
Qed.

Lemma change_keeps_responses (d d' : database) :
  change d d' -> responses_sound d -> responses_sound d'.
Proof.
  unfold responses_sound. intros Hc Hall.
  destruct Hc; cbn [snd insert_question insert_response insert_answer
    update_question_text delete_question_rows delete_response_row
    delete_answers_of insert_admin responses];
    try exact Hall.
  - apply Forall_app. split; [ exact Hall | ].
    constructor; [ simpl; auto | constructor ].
  - rewrite List.Forall_forall in *. intros r Hr.
    apply filter_In in Hr. apply Hall. tauto.
Qed.

(** X9.  In every state reachable from the empty database, the ids of
    the questions, of the responses and of the answers are pairwise
    distinct, and none exceeds the AUTOINCREMENT counter of its table, so
    that the next row gets an id that no row has. *)
Theorem row_ids_issued_once (d : database) :
  reachable d ->
  List.NoDup (map q_id (questions d)) /\
  List.NoDup (map r_id (responses d)) /\
  List.NoDup (map a_id (answers d)) /\
  Forall (fun q => q_id q < next_rowid (seq_questions d)
                             (map q_id (questions d))) (questions d) /\
  Forall (fun r => r_id r < next_rowid (seq_responses d)
                             (map r_id (responses d))) (responses d) /\
  Forall (fun a => a_id a < next_rowid (seq_answers d)
                             (map a_id (answers d))) (answers d) /\
  ids_issued_once d.
Proof.
  intros Hreach.
  assert (Hids : ids_issued_once d).
  { apply (reachable_invariant ids_issued_once); auto.
    - unfold ids_issued_once. simpl. repeat split; constructor.
    - apply change_keeps_ids. }
  destruct Hids as ((Hq & Hqs) & (Hr & Hrs) & (Ha & Has)) eqn:Hsplit.
  clear Hsplit.
  repeat (split; [ assumption | ]).
  unfold next_rowid.
  split; [ | split; [ | split ] ].
  - apply List.Forall_forall. intros q Hin.
    rewrite List.Forall_forall in Hqs.
    specialize (Hqs _ (in_map q_id _ _ Hin)). simpl in Hqs. lia.
  - apply List.Forall_forall. intros r Hin.
    rewrite List.Forall_forall in Hrs.
    specialize (Hrs _ (in_map r_id _ _ Hin)). simpl in Hrs. lia.
  - apply List.Forall_forall. intros a Hin.
    rewrite List.Forall_forall in Has.
    specialize (Has _ (in_map a_id _ _ Hin)). simpl in Has. lia.
  - unfold ids_issued_once. auto.
Qed.

(** X10.  In every state reachable from the empty database, each answer
    row carries the id of a response that is stored: submissions write
    the response before its answers, and the delete of a response removes
    its answers with it. *)
Theorem answers_belong_to_responses (d : database) :
  reachable d ->
  forall a, In a (answers d) ->
    exists r, In r (responses d) /\ r_id r = a_response_id a.
Proof.
  intros Hreach.
  assert (Howned : answers_owned d).
  { apply (reachable_invariant answers_owned); auto.
    - constructor.
    - apply change_keeps_owners. }
  unfold answers_owned in Howned. now rewrite List.Forall_forall in Howned.
Qed.

(** X11.  In every state reachable from the empty database, no question
    has an empty text, and the positions of the questions are not
    negative and pairwise distinct. *)
Theorem questions_stay_sound (d : database) :
  reachable d ->
  Forall (fun q => q_text q <> "" /\ 0 <= q_position q) (questions d) /\
  List.NoDup (map q_position (questions d)).
Proof.
  intros Hreach.
  apply (reachable_invariant questions_sound); auto.
  - split; constructor.
  - apply change_keeps_questions.
Qed.

(** X12.  In every state reachable from the empty database, no response
    has an empty name or a negative score. *)
Theorem responses_stay_sound (d : database) :
  reachable d ->
  Forall (fun r => r_name r <> "" /\ 0 <= r_score r) (responses d).
Proof.
  intros Hreach.
  apply (reachable_invariant responses_sound); auto.
  - constructor.
  - apply change_keeps_responses.
Qed.

End Kept.

Lemma after_submission_reachable :
  @reachable Sample.runtime SampleStates.after_submission.
Proof.
  eapply reachable_step; [ | apply op_static ].
  eapply reachable_step; [ apply reachable_empty | ].
  exact (@op_static_start Sample.runtime empty_database
           "2024-05-01 09:00:00").
Defined.

Lemma row_ids_issued_once_witness :
  let d := SampleStates.after_submission in
  @reachable Sample.runtime d /\
  map q_id (questions d) = [1; 2; 3; 4; 5] /\
  map r_id (responses d) = [1] /\
  map a_id (answers d) = [1; 2; 3] /\
  List.NoDup (map q_id (questions d)) /\
  List.NoDup (map r_id (responses d)) /\
  List.NoDup (map a_id (answers d)) /\
  Forall (fun q => q_id q < next_rowid (seq_questions d)
                             (map q_id (questions d))) (questions d) /\
  Forall (fun r => r_id r < next_rowid (seq_responses d)
                             (map r_id (responses d))) (responses d) /\
  Forall (fun a => a_id a < next_rowid (seq_answers d)
                             (map a_id (answers d))) (answers d) /\
  ids_issued_once d.
Proof.
  intros d.
  split; [ exact after_submission_reachable | ].
  split; [ reflexivity | ].
  split; [ reflexivity | ].
  split; [ reflexivity | ].
  exact (@row_ids_issued_once Sample.runtime d after_submission_reachable).
Defined.

Lemma answers_belong_to_responses_witness :
  let d := SampleStates.after_submission in
  @reachable Sample.runtime d /\
  map a_response_id (answers d) = [1; 1; 1] /\
  forall a, In a (answers d) ->
    exists r, In r (responses d) /\ r_id r = a_response_id a.
Proof.
  intros d.
  split; [ exact after_submission_reachable | ].
  split; [ reflexivity | ].
  exact (@answers_belong_to_responses Sample.runtime d
           after_submission_reachable).
Defined.

Lemma questions_stay_sound_witness :
  let d := SampleStates.after_submission in
  @reachable Sample.runtime d /\
  map q_position (questions d) = [0; 1; 2; 3; 4] /\
  Forall (fun q => q_text q <> "" /\ 0 <= q_position q) (questions d) /\
  List.NoDup (map q_position (questions d)).
Proof.
  intros d.
  split; [ exact after_submission_reachable | ].
  split; [ reflexivity | ].
  exact (@questions_stay_sound Sample.runtime d after_submission_reachable).
Defined.

Lemma responses_stay_sound_witness :
  let d := SampleStates.after_submission in
  @reachable Sample.runtime d /\
  map (fun r => (r_name r, r_score r)) (responses d) = [("Ann", 5)] /\
  Forall (fun r => r_name r <> "" /\ 0 <= r_score r) (responses d).
Proof.
  intros d.
  split; [ exact after_submission_reachable | ].
  split; [ reflexivity | ].
  exact (@responses_stay_sound Sample.runtime d after_submission_reachable).
Defined.

(** ** Who may write *)

Section Frame.
Context `{Runtime}.

(** X13.  The database changes only through a response submission or an
    admitted request to a route that writes: a request to another route,
    or one that is neither a submission nor carries the credential,
    leaves the database as it is, in both variants; and the session set
    changes only through the login route. *)
Theorem writes_need_credential (req : request) :
  (forall s,
     ~ writes (route req) \/
     (route req <> POST_responses /\ ~ session_credential s req) ->
     SessionVariant.db (snd (SessionVariant.handle s req))
     = SessionVariant.db s) /\
  (forall password d,
     ~ writes (route req) \/
     (route req <> POST_responses /\ ~ static_credential password req) ->
     snd (StaticVariant.handle password d req) = d) /\
  (forall s,
     route req <> POST_admin_login ->
     SessionVariant.activeSessions (snd (SessionVariant.handle s req))
     = SessionVariant.activeSessions s).
Proof.
  split; [ | split ].
  - intros s Hcase. unfold SessionVariant.handle.
    destruct (route req) eqn:Hroute;
      try reflexivity; try apply login_db;
      unfold SessionVariant.guarded;
      try (destruct (SessionVariant.requireAdmin s req); reflexivity);
      destruct Hcase as [Hread | [Hother Hnone]];
      try (exfalso; apply Hread; exact I);
      try congruence;
      now rewrite (session_gate_closed s req Hnone).
  - intros password d Hcase. unfold StaticVariant.handle.
    destruct (route req) eqn:Hroute;
      try reflexivity;
      unfold StaticVariant.guarded;
      try (destruct (StaticVariant.requireAdmin password req); reflexivity);
      destruct Hcase as [Hread | [Hother Hnone]];
      try (exfalso; apply Hread; exact I);
      try congruence;
      now rewrite (static_gate_closed password req Hnone).
  - intros s Hroute. unfold SessionVariant.handle.
    destruct (route req);
      try congruence;
      unfold SessionVariant.guarded, SessionVariant.with_db;
      try destruct (SessionVariant.requireAdmin s req); reflexivity.
Qed.

End Frame.

Lemma writes_need_credential_witness :
  route SampleSessions.anonymous_delete <> POST_responses /\
  ~ session_credential SampleAdmin.server SampleSessions.anonymous_delete /\
  SessionVariant.db
    (snd (@SessionVariant.handle Sample.runtime SampleAdmin.server
            SampleSessions.anonymous_delete))
  = SampleAdmin.stocked /\
  ~ writes (route SampleSessions.list_responses) /\
  snd (@StaticVariant.handle Sample.runtime "admin123" SampleAdmin.stocked
         SampleSessions.list_responses)
  = SampleAdmin.stocked /\
  route SampleInputs.submission <> POST_admin_login /\
  SessionVariant.activeSessions
    (snd (@SessionVariant.handle Sample.runtime SampleAdmin.server
            SampleInputs.submission))
  = SessionVariant.activeSessions SampleAdmin.server.
Proof.
  assert (Hroute : route SampleSessions.anonymous_delete <> POST_responses)
    by discriminate.
  assert (Hnone : ~ session_credential SampleAdmin.server
                    SampleSessions.anonymous_delete).
  { intros (header & Heq & _). discriminate Heq. }
  assert (Hread : ~ writes (route SampleSessions.list_responses))
    by (exact (fun x => x)).
  assert (Hlogin : route SampleInputs.submission <> POST_admin_login)
    by discriminate.
  split; [ exact Hroute | ].
  split; [ exact Hnone | ].
  split.
  { exact (proj1 (@writes_need_credential Sample.runtime
                    SampleSessions.anonymous_delete)
             SampleAdmin.server (or_intror (conj Hroute Hnone))). }
  split; [ exact Hread | ].
  split.
  { exact (proj1 (proj2 (@writes_need_credential Sample.runtime
                           SampleSessions.list_responses))
             "admin123" SampleAdmin.stocked (or_introl Hread)). }
  split; [ exact Hlogin | ].
  exact (proj2 (proj2 (@writes_need_credential Sample.runtime
                         SampleInputs.submission))
           SampleAdmin.server Hlogin).
Defined.

(** ** A submission and what is read back *)

Section Read_back.
Context `{Runtime}.

Lemma count_app {A : Type} (f : A -> bool) (l1 l2 : list A) :
  count f (l1 ++ l2) = count f l1 + count f l2.
Proof.
  unfold count. rewrite List.filter_app, length_app. lia.
Qed.

Lemma safeVal_token (val : json) (tok : string) :
  tok = "topp" \/ tok = "flash" ->
  (safeVal val = Some tok <-> val = JString tok).
Proof.
  intros Htok.
  destruct val as [ | b | n | s | items | props ]; simpl;
    try (split; discriminate).
  destruct (String.eqb_spec s "topp") as [-> | Htopp]; simpl.
  - split; congruence.
  - destruct (String.eqb_spec s "flash") as [-> | Hflash]; simpl.
    + split; congruence.
    + split; [ discriminate | ].
      intros Heq. injection Heq as ->. destruct Htok; congruence.
Qed.

(** The row written for an entry counts for a question and a token exactly
    when the entry gives that token to that question. *)
Lemma row_counts (responseId id : Z) (tok : string) (e : string * json)
    (a : answer) :
  tok = "topp" \/ tok = "flash" ->
  row_of responseId e a ->
  question_is id a && value_is tok a = entry_gives id tok e.
Proof.
  intros Htok (_ & Hkey & Hval).
  unfold question_is, value_is, entry_gives. rewrite Hkey, Hval.
  destruct (a_question_id a) as [z | r].
  - destruct (z =? id); simpl.
    + destruct (snd e) as [ | b | n | s | items | props ]; simpl;
        try reflexivity.
      destruct (String.eqb_spec s "topp") as [-> | Htopp]; simpl;
        [ reflexivity | ].
      destruct (String.eqb_spec s "flash") as [-> | Hflash]; simpl;
        [ reflexivity | ].
      symmetry. apply String.eqb_neq. destruct Htok; congruence.
    + now destruct (snd e).
  - now destruct (snd e).
Qed.

Lemma row_counts_total (responseId id : Z) (e : string * json) (a : answer) :
  row_of responseId e a ->
  question_is id a && value_not_null a
  = entry_gives id "topp" e || entry_gives id "flash" e.
Proof.
  intros (_ & Hkey & Hval).
  unfold question_is, value_not_null, entry_gives. rewrite Hkey, Hval.
  destruct (a_question_id a) as [z | r].
  - destruct (z =? id); simpl.
    + destruct (snd e) as [ | b | n | s | items | props ]; simpl;
        try reflexivity.
      destruct (String.eqb s "topp"); simpl; [ reflexivity | ].
      destruct (String.eqb s "flash"); reflexivity.
    + now destruct (snd e).
  - now destruct (snd e).
Qed.

Lemma rows_count (responseId : Z) (f : answer -> bool)
    (g : string * json -> bool) (entries : list (string * json))
    (rows : list answer) :
  (forall e a, row_of responseId e a -> f a = g e) ->
  Forall2 (row_of responseId) entries rows ->
  count f rows = Z.of_nat (List.length (List.filter g entries)).
Proof.
  intros Hfg Hrows. unfold count. f_equal.
  induction Hrows as [ | e a es rows' Hrow _ IH ]; simpl; [ reflexivity | ].
  rewrite (Hfg e a Hrow). destruct (g e); simpl; now rewrite IH.
Qed.

Lemma filter_or_length {A : Type} (f g : A -> bool) (l : list A) :
  (forall x, f x = true -> g x = false) ->
  List.length (List.filter (fun x => f x || g x) l)
  = (List.length (List.filter f l) + List.length (List.filter g l))%nat.
Proof.
  intros Hdisjoint. induction l as [ | x l IH ]; simpl; [ reflexivity | ].
  destruct (f x) eqn:Hf; simpl.
  - rewrite (Hdisjoint x Hf). simpl. now rewrite IH.
  - destruct (g x); simpl; rewrite IH; lia.
Qed.

Lemma entry_gives_one_token (id : Z) (e : string * json) :
  entry_gives id "topp" e = true -> entry_gives id "flash" e = false.
Proof.
  unfold entry_gives. destruct (ToNumber (fst e)) as [[z | r] | ];
    try discriminate.
  destruct (snd e) as [ | b | n | s | items | props ]; try discriminate.
  rewrite !andb_true_iff. intros [_ Hs].
  apply String.eqb_eq in Hs. subst s. apply andb_false_iff. now right.
Qed.

Lemma reward_of_row (responseId : Z) (e : string * json) (a : answer) :
  row_of responseId e a ->
  reward (snd e)
  = (if value_is "topp" a then 2 else 0)
    + (if value_is "flash" a then 3 else 0).
Proof.
  intros (_ & _ & Hval). unfold value_is. rewrite Hval.
  destruct (snd e) as [ | b | n | s | items | props ]; simpl;
    try reflexivity.
  destruct (String.eqb_spec s "topp") as [-> | Htopp]; simpl;
    [ reflexivity | ].
  destruct (String.eqb_spec s "flash") as [-> | Hflash]; simpl;
    reflexivity.
Qed.

(** X14.  The score of a completed submission is the one its stored
    answers give: twice the number of the rows it wrote with "topp" plus
    three times the number it wrote with "flash". *)
Theorem score_matches_stored_answers (req : request) (d : database)
    (name : string) (ans : json) :
  name_accepted req name -> answers_object req ans ->
  Forall (fun e => ToNumber (fst e) <> None) (Object_entries ans) ->
  exists responseId score rows,
    let out := post_response req d in
    fst out = Json 200 (BodyResponse responseId score) /\
    In (mkResponse responseId name score (now req)) (responses (snd out)) /\
    answers (snd out) = (answers d ++ rows)%list /\
    Forall (fun a => a_response_id a = responseId) rows /\
    score = 2 * tally (fun a => a_value a = Some "topp") rows
            + 3 * tally (fun a => a_value a = Some "flash") rows.
Proof.
  intros Hname Hans Hkeys.
  destruct (accepted_rows req d name ans Hname Hans Hkeys)
    as (rid & rows & Hreply & _ & _ & Hr & Ha & Hrows).
  exists rid, (score_of ans), rows. cbv zeta in *.
  split; [ exact Hreply | ].
  split; [ rewrite Hr; apply in_or_app; right; now left | ].
  split; [ exact Ha | ].
  split.
  { clear - Hrows. induction Hrows as [ | e a es rows' (Hid & _) _ IH ];
      constructor; auto. }
  rewrite <- !(count_tally (value_is _)) by (intros a; apply value_is_spec).
  rewrite score_of_sum. unfold Object_values.
  clear - Hrows. induction Hrows as [ | e a es rows' Hrow _ IH ]; simpl.
  - reflexivity.
  - rewrite !count_cons, IH, (reward_of_row rid e a Hrow).
    destruct (value_is "topp" a), (value_is "flash" a); lia.
Qed.

(** X15.  After a completed submission the analytics of each question
    have grown by what was submitted for it: yes by the entries that give
    it "topp", no by those that give it "flash", total by both; the number
    of responses has grown by one and the questions are the same. *)
Theorem analytics_after_submission (req : request) (d : database)
    (name : string) (ans : json) (q : question) :
  name_accepted req name -> answers_object req ans ->
  Forall (fun e => ToNumber (fst e) <> None) (Object_entries ans) ->
  let d' := snd (post_response req d) in
  s_yes (stat_of d' q) = s_yes (stat_of d q) + given (q_id q) "topp" ans /\
  s_no (stat_of d' q) = s_no (stat_of d q) + given (q_id q) "flash" ans /\
  s_total (stat_of d' q)
    = s_total (stat_of d q)
      + given (q_id q) "topp" ans + given (q_id q) "flash" ans /\
  get_analytics d'
    = (Json 200
         (BodyAnalytics
            (map (stat_of d') (order_by by_position (questions d)))
            (Z.of_nat (List.length (responses d)) + 1)), d').
Proof.
  intros Hname Hans Hkeys d'.
  destruct (accepted_rows req d name ans Hname Hans Hkeys)
    as (rid & rows & _ & Hq & _ & Hr & Ha & Hrows).
  cbv zeta in *. fold d' in Hq, Hr, Ha.
  unfold stat_of, given. cbn [s_yes s_no s_total]. rewrite Ha, !count_app.
  rewrite (rows_count rid _ (entry_gives (q_id q) "topp") _ _
             (fun e a => row_counts rid (q_id q) "topp" e a (or_introl eq_refl))
             Hrows).
  rewrite (rows_count rid _ (entry_gives (q_id q) "flash") _ _
             (fun e a => row_counts rid (q_id q) "flash" e a
                           (or_intror eq_refl)) Hrows).
  rewrite (rows_count rid _
             (fun e => entry_gives (q_id q) "topp" e
                       || entry_gives (q_id q) "flash" e) _ _
             (fun e a => row_counts_total rid (q_id q) e a) Hrows).
  rewrite (filter_or_length _ _ _ (entry_gives_one_token (q_id q))).
  split; [ reflexivity | ]. split; [ reflexivity | ].
  split; [ lia | ].
  unfold get_analytics. rewrite Hq, Hr, count_all, length_app. simpl.
  do 3 f_equal. unfold stat_of. rewrite Ha. f_equal. lia.
Qed.

End Read_back.

Lemma sample_submission_accepted :
  name_accepted SampleInputs.submission "Ann" /\
  answers_object SampleInputs.submission SampleInputs.three_answers /\
  Forall (fun e => @ToNumber Sample.runtime (fst e) <> None)
    (Object_entries SampleInputs.three_answers).
Proof.
  split; [ exists " Ann "; repeat split; discriminate | ].
  split; [ split; [ reflexivity | left; eexists; reflexivity ] | ].
  repeat constructor; discriminate.
Defined.

Lemma score_matches_stored_answers_witness :
  name_accepted SampleInputs.submission "Ann" /\
  answers_object SampleInputs.submission SampleInputs.three_answers /\
  Forall (fun e => @ToNumber Sample.runtime (fst e) <> None)
    (Object_entries SampleInputs.three_answers) /\
  exists responseId score rows,
    let out := @post_response Sample.runtime SampleInputs.submission
                 SampleAdmin.stocked in
    fst out = Json 200 (BodyResponse responseId score) /\
    In (mkResponse responseId "Ann" score (now SampleInputs.submission))
       (responses (snd out)) /\
    answers (snd out) = (answers SampleAdmin.stocked ++ rows)%list /\
    Forall (fun a => a_response_id a = responseId) rows /\
    score = 2 * tally (fun a => a_value a = Some "topp") rows
            + 3 * tally (fun a => a_value a = Some "flash") rows.
Proof.
  destruct sample_submission_accepted as (Hname & Hans & Hkeys).
  split; [ exact Hname | ]. split; [ exact Hans | ].
  split; [ exact Hkeys | ].
  exact (@score_matches_stored_answers Sample.runtime SampleInputs.submission
           SampleAdmin.stocked "Ann" SampleInputs.three_answers
           Hname Hans Hkeys).
Defined.

Lemma analytics_after_submission_witness :
  let q := mkQuestion 2 "Route 2: Blue Corner" 4 SampleAdmin.at_noon in
  let d' := snd (@post_response Sample.runtime SampleInputs.submission
                   SampleAdmin.stocked) in
  name_accepted SampleInputs.submission "Ann" /\
  answers_object SampleInputs.submission SampleInputs.three_answers /\
  Forall (fun e => @ToNumber Sample.runtime (fst e) <> None)
    (Object_entries SampleInputs.three_answers) /\
  @given Sample.runtime 2 "flash" SampleInputs.three_answers = 1 /\
  s_yes (stat_of d' q)
    = s_yes (stat_of SampleAdmin.stocked q)
      + @given Sample.runtime (q_id q) "topp" SampleInputs.three_answers /\
  s_no (stat_of d' q)
    = s_no (stat_of SampleAdmin.stocked q)
      + @given Sample.runtime (q_id q) "flash" SampleInputs.three_answers /\
  s_total (stat_of d' q)
    = s_total (stat_of SampleAdmin.stocked q)
      + @given Sample.runtime (q_id q) "topp" SampleInputs.three_answers
      + @given Sample.runtime (q_id q) "flash" SampleInputs.three_answers /\
  get_analytics d'
    = (Json 200
         (BodyAnalytics
            (map (stat_of d')
               (order_by by_position (questions SampleAdmin.stocked)))
            (Z.of_nat (List.length (responses SampleAdmin.stocked)) + 1)),
       d').
Proof.
  intros q d'.
  destruct sample_submission_accepted as (Hname & Hans & Hkeys).
  split; [ exact Hname | ]. split; [ exact Hans | ].
  split; [ exact Hkeys | ]. split; [ reflexivity | ].
  exact (@analytics_after_submission Sample.runtime SampleInputs.submission
           SampleAdmin.stocked "Ann" SampleInputs.three_answers q
           Hname Hans Hkeys).
Defined.

(** ** The listing of responses *)

Lemma string_compare_trans (s1 s2 s3 : string) :
  String.compare s1 s2 <> Gt -> String.compare s2 s3 <> Gt ->
  String.compare s1 s3 <> Gt.
Proof.
  revert s2 s3.
  induction s1 as [ | c1 r1 IH ]; intros [ | c2 r2 ] [ | c3 r3 ]; simpl;
    try congruence.
  unfold Ascii.compare.
  destruct (N.compare_spec (N_of_ascii c1) (N_of_ascii c2));
    destruct (N.compare_spec (N_of_ascii c2) (N_of_ascii c3));
    destruct (N.compare_spec (N_of_ascii c1) (N_of_ascii c3));
    try congruence; try lia.
  apply IH.
Qed.

Lemma by_submitted_desc_total (a b : response) :
  by_submitted_desc a b = true \/ by_submitted_desc b a = true.
Proof.
  unfold by_submitted_desc.
  destruct (String.leb_total (r_submitted_at a) (r_submitted_at b)); auto.
Qed.

Lemma by_submitted_desc_trans (a b c : response) :
  by_submitted_desc a b = true -> by_submitted_desc b c = true ->
  by_submitted_desc a c = true.
Proof.
  unfold by_submitted_desc, String.leb. intros Hab Hbc.
  pose proof (string_compare_trans (r_submitted_at c) (r_submitted_at b)
                (r_submitted_at a)) as Htrans.
  destruct (String.compare (r_submitted_at c) (r_submitted_at b));
    destruct (String.compare (r_submitted_at b) (r_submitted_at a));
    destruct (String.compare (r_submitted_at c) (r_submitted_at a));
    try reflexivity; try discriminate;
    exfalso; apply Htrans; congruence.
Qed.

Lemma numeric_eqb_spec (a b : numeric) : numeric_eqb a b = true <-> a = b.
Proof.
  destruct a as [x | x], b as [y | y]; simpl.
  - rewrite Z.eqb_eq. split; congruence.
  - split; discriminate.
  - split; discriminate.
  - rewrite String.eqb_eq. split; congruence.
Qed.

(** [m[k] = v] keeps one property per key, sets that of [k] and leaves
    the others. *)
Lemma set_key_spec (k : numeric) (v : option string)
    (m : list (numeric * option string)) :
  List.NoDup (map fst m) ->
  List.NoDup (map fst (set_key k v m)) /\
  forall k' v',
    In (k', v') (set_key k v m)
    <-> (k' = k /\ v' = v) \/ (k' <> k /\ In (k', v') m).
Proof.
  induction m as [ | [k0 v0] rest IH ]; simpl; intros Hnodup.
  - split; [ constructor; [ intros [] | constructor ] | ].
    intros k' v'. split.
    + intros [Heq | []]. injection Heq as <- <-. now left.
    + intros [[-> ->] | [_ []]]. now left.
  - inversion Hnodup as [ | ? ? Hk0 Hrest ]; subst.
    destruct (IH Hrest) as [IHnodup IHin].
    destruct (numeric_eqb k k0) eqn:Heqb.
    + apply numeric_eqb_spec in Heqb. subst k0. simpl.
      split; [ constructor; assumption | ].
      intros k' v'. split.
      * intros [Heq | Hin].
        -- injection Heq as <- <-. now left.
        -- right. split; [ | now right ].
           intros ->. apply Hk0. apply in_map_iff. now exists (k, v').
      * intros [[-> ->] | [Hne [Heq | Hin]]].
        -- now left.
        -- injection Heq as <- <-. congruence.
        -- now right.
    + assert (Hne : k <> k0).
      { intros ->. rewrite (proj2 (numeric_eqb_spec k0 k0) eq_refl) in Heqb.
        discriminate. }
      simpl. split.
      * constructor; [ | exact IHnodup ].
        intros Hin. apply in_map_iff in Hin.
        destruct Hin as ([k1 v1] & Hfst & Hin). simpl in Hfst. subst k1.
        apply IHin in Hin. destruct Hin as [[-> _] | [_ Hin]];
          [ congruence | ].
        apply Hk0. apply in_map_iff. now exists (k0, v1).
      * intros k' v'. rewrite IHin. split.
        -- intros [Heq | [[-> ->] | [Hne' Hin]]].
           ++ injection Heq as <- <-. right. split; [ congruence | now left ].
           ++ now left.
           ++ right. split; [ exact Hne' | now right ].
        -- intros [[-> ->] | [Hne' [Heq | Hin]]].
           ++ right. now left.
           ++ now left.
           ++ right. right. now split.
Qed.

Lemma answers_of_snoc (id : Z) (rows : list answer) (x : answer) :
  answers_of id (rows ++ [x])
  = if a_response_id x =? id
    then set_key (a_question_id x) (a_value x) (answers_of id rows)
    else answers_of id rows.
Proof. unfold answers_of. now rewrite fold_left_app. Qed.

Lemma last_row_snoc (id : Z) (k : numeric) (a x : answer)
    (rows : list answer) :
  last_row id k a (rows ++ [x])
  <-> (a = x /\ a_response_id x = id /\ a_question_id x = k) \/
      (last_row id k a rows /\
       ~ (a_response_id x = id /\ a_question_id x = k)).
Proof.
  unfold last_row. split.
  - intros (before & after & Heq & Hid & Hk & Hafter).
    destruct after as [ | y after' _ ] using rev_ind.
    + apply app_inj_tail in Heq. destruct Heq as [_ <-]. now left.
    + rewrite app_comm_cons, app_assoc in Heq.
      apply app_inj_tail in Heq. destruct Heq as [-> <-].
      apply Forall_app in Hafter. destruct Hafter as [Hafter Hx].
      inversion Hx; subst. right. split; [ | assumption ].
      exists before, after'. auto.
  - intros [(-> & Hid & Hk) | [(before & after & -> & Hid & Hk & Hafter) Hx]].
    + exists rows, []. repeat split; auto.
    + exists before, (after ++ [x])%list. rewrite <- app_assoc. simpl.
      repeat split; auto.
      apply Forall_app. split; [ exact Hafter | ].
      constructor; [ exact Hx | constructor ].
Qed.

Lemma answers_of_spec (id : Z) (rows : list answer) :
  List.NoDup (map fst (answers_of id rows)) /\
  forall k v,
    In (k, v) (answers_of id rows)
    <-> exists a, last_row id k a rows /\ a_value a = v.
Proof.
  induction rows as [ | x rows [IHnodup IHin] ] using rev_ind.
  - split; [ constructor | ]. intros k v. split; [ intros [] | ].
    intros (a & (before & after & Heq & _) & _).
    destruct before; discriminate Heq.
  - rewrite answers_of_snoc.
    destruct (Z.eqb_spec (a_response_id x) id) as [Hid | Hid].
    + destruct (set_key_spec (a_question_id x) (a_value x)
                  (answers_of id rows) IHnodup) as [Hnodup Hin].
      split; [ exact Hnodup | ]. intros k v. rewrite Hin. split.
      * intros [[-> ->] | [Hne Hold]].
        -- exists x. split; [ | reflexivity ].
           apply last_row_snoc. left. auto.
        -- apply IHin in Hold. destruct Hold as (a & Hlast & Hv).
           exists a. split; [ | exact Hv ].
           apply last_row_snoc. right. split; [ exact Hlast | ].
           intros [_ Hk]. congruence.
      * intros (a & Hlast & Hv). apply last_row_snoc in Hlast.
        destruct Hlast as [(-> & _ & Hk) | [Hlast Hx]].
        -- left. auto.
        -- right. split.
           ++ intros ->. apply Hx. auto.
           ++ apply IHin. now exists a.
    + split; [ exact IHnodup | ]. intros k v. rewrite IHin. split.
      * intros (a & Hlast & Hv). exists a. split; [ | exact Hv ].
        apply last_row_snoc. right. split; [ exact Hlast | ].
        intros [Hx _]. contradiction.
      * intros (a & Hlast & Hv). apply last_row_snoc in Hlast.
        destruct Hlast as [(_ & Hx & _) | [Hlast _]]; [ contradiction | ].
        now exists a.
Qed.

(** X16.  GET /api/responses lists every stored response once, newest
    first, and changes nothing.  The answers object of a response has one
    property per question id found among its answer rows, whose value is
    that of the last such row. *)
Theorem responses_listed_with_answers (d : database) :
  exists listed,
    get_responses d
    = (Json 200
         (BodyResponses
            (map (fun r => (r, answers_of (r_id r) (answers d))) listed)),
       d) /\
    ordered_by by_submitted_desc (responses d) listed /\
    forall id,
      List.NoDup (map fst (answers_of id (answers d))) /\
      forall k v,
        In (k, v) (answers_of id (answers d))
        <-> exists a, last_row id k a (answers d) /\ a_value a = v.
Proof.
  exists (order_by by_submitted_desc (responses d)).
  split; [ reflexivity | ].
  split.
  - apply order_by_ordered;
      [ apply by_submitted_desc_total | apply by_submitted_desc_trans ].
  - intros id. apply answers_of_spec.
Qed.

Example responses_of_stocked :
  get_responses SampleAdmin.stocked
  = (Json 200
       (BodyResponses
          [(mkResponse 1 "Ann" 2 SampleAdmin.at_noon,
            [(NInt 2, Some "topp")]);
           (mkResponse 2 "Bob" 3 SampleAdmin.at_noon,
            [(NInt 2, Some "flash")])]),
     SampleAdmin.stocked).
Proof. reflexivity. Qed.

Section Reachable_facts.
Context `{Runtime}.

Lemma owner_of_each_answer (d : database) :
  reachable d ->
  forall a, In a (answers d) ->
    exists r, In r (responses d) /\ r_id r = a_response_id a.
Proof.
  intros Hreach.
  assert (Howned : answers_owned d).
  { apply (reachable_invariant answers_owned); auto.
    - constructor.
    - apply change_keeps_owners. }
  unfold answers_owned in Howned. now rewrite List.Forall_forall in Howned.
Qed.

Lemma response_ids_below_next (d : database) :
  reachable d ->
  forall r, In r (responses d) ->
    r_id r < next_rowid (seq_responses d) (map r_id (responses d)).
Proof.
  intros Hreach r Hr.
  assert (Hids : ids_issued_once d).
  { apply (reachable_invariant ids_issued_once); auto.
    - unfold ids_issued_once. simpl. repeat split; constructor.
    - apply change_keeps_ids. }
  destruct Hids as (_ & (_ & Hbound) & _).
  rewrite List.Forall_forall in Hbound.
  specialize (Hbound _ (in_map r_id _ _ Hr)). simpl in Hbound.
  unfold next_rowid. lia.
Qed.

End Reachable_facts.

Section Round_trip.
Context `{Runtime}.

Lemma accepted_rows_fresh (req : request) (d : database) (name : string)
    (ans : json) :
  name_accepted req name -> answers_object req ans ->
  Forall (fun e => ToNumber (fst e) <> None) (Object_entries ans) ->
  let responseId := next_rowid (seq_responses d) (map r_id (responses d)) in
  exists rows,
    let out := post_response req d in
    fst out = Json 200 (BodyResponse responseId (score_of ans)) /\
    answers (snd out) = (answers d ++ rows)%list /\
    Forall2 (row_of responseId) (Object_entries ans) rows.
Proof.
  intros Hname Hans Hkeys rid.
  rewrite (post_response_accepted req d name ans Hname Hans).
  unfold insert_response. cbv zeta. fold rid.
  set (d1 := mkDatabase _ _ _ _ _ _ _).
  destruct (insert_answers_spec rid (Object_entries ans) d1)
    as (rows & Ha & _ & _ & _ & Hrows).
  cbv zeta in Ha, Hrows.
  pose proof (insert_answers_normal rid _ d1 Hkeys) as Hnormal.
  rewrite Hnormal in Hrows.
  destruct (insert_answers rid (Object_entries ans) d1) as [c d2].
  simpl in *. subst c. exists rows. auto.
Qed.

(** The last row for a question among the rows of a submission is the row
    of the last entry whose key reads as that question. *)
Lemma last_row_of_entries (responseId : Z) (k : numeric) (v : option string)
    (entries : list (string * json)) (rows : list answer) :
  Forall2 (row_of responseId) entries rows ->
  (exists a, last_row responseId k a rows /\ a_value a = v)
  <-> exists before e after,
        entries = (before ++ e :: after)%list /\
        ToNumber (fst e) = Some k /\ safeVal (snd e) = v /\
        Forall (fun e' => ToNumber (fst e') <> Some k) after.
Proof.
  intros Hrows. split.
  - intros (a & (rb & ra & -> & Hid & Hk & Hafter) & Hv).
    apply Forall2_app_inv_r in Hrows.
    destruct Hrows as (eb & etail & _ & Htail & ->).
    inversion Htail as [ | e a' ea ra' (_ & Hkey & Hval) Hrest ]; subst.
    exists eb, e, ea. repeat split; try congruence.
    clear - Hrest Hafter.
    induction Hrest as [ | e' a' ea' ra' (Hid' & Hkey' & _) _ IH ];
      [ constructor | ].
    inversion Hafter as [ | ? ? Hhead Htl ]; subst.
    constructor; [ | now apply IH ].
    intros Heq. apply Hhead. split; [ exact Hid' | congruence ].
  - intros (eb & e & ea & -> & Hkey & Hval & Hafter).
    apply Forall2_app_inv_l in Hrows.
    destruct Hrows as (rb & rtail & _ & Htail & ->).
    inversion Htail as [ | e' a ea' ra (Hid & Hkey' & Hval') Hrest ]; subst.
    exists a. split; [ | congruence ].
    exists rb, ra. repeat split; try congruence.
    clear - Hrest Hafter.
    induction Hrest as [ | e' a' ea' ra' (_ & Hkey' & _) _ IH ];
      [ constructor | ].
    inversion Hafter as [ | ? ? Hhead Htl ]; subst.
    constructor; [ | now apply IH ].
    intros [_ Heq]. apply Hhead. congruence.
Qed.

(** Rows of other responses in front do not matter. *)
Lemma last_row_skip (id : Z) (k : numeric) (a : answer)
    (old rows : list answer) :
  Forall (fun b => a_response_id b <> id) old ->
  (last_row id k a (old ++ rows) <-> last_row id k a rows).
Proof.
  intros Hold. induction Hold as [ | b old Hb _ IH ]; [ reflexivity | ].
  rewrite <- IH. simpl. unfold last_row. split.
  - intros (before & after & Heq & Hid & Hk & Hafter).
    destruct before as [ | b' before ]; simpl in Heq.
    + injection Heq as <- _. contradiction.
    + injection Heq as <- Heq. exists before, after. auto.
  - intros (before & after & Heq & Hid & Hk & Hafter).
    exists (b :: before), after. simpl. rewrite Heq. auto.
Qed.

(** X17.  What is submitted is what is read back: in a reachable state,
    after a completed submission, the answers object that GET
    /api/responses builds for the new response has, for each number that
    a submitted key reads as, the sanitised value of the last entry with
    such a key, and nothing else. *)
Theorem submitted_answers_read_back (req : request) (d : database)
    (name : string) (ans : json) :
  reachable d ->
  name_accepted req name -> answers_object req ans ->
  Forall (fun e => ToNumber (fst e) <> None) (Object_entries ans) ->
  let out := post_response req d in
  exists responseId score,
    fst out = Json 200 (BodyResponse responseId score) /\
    forall k v,
      In (k, v) (answers_of responseId (answers (snd out)))
      <-> exists before e after,
            Object_entries ans = (before ++ e :: after)%list /\
            ToNumber (fst e) = Some k /\ safeVal (snd e) = v /\
            Forall (fun e' => ToNumber (fst e') <> Some k) after.
Proof.
  intros Hreach Hname Hans Hkeys out. subst out.
  destruct (accepted_rows_fresh req d name ans Hname Hans Hkeys)
    as (rows & Hreply & Ha & Hrows).
  cbv zeta in *.
  set (rid := next_rowid (seq_responses d) (map r_id (responses d))) in *.
  exists rid, (score_of ans). split; [ exact Hreply | ].
  assert (Hold : Forall (fun b => a_response_id b <> rid) (answers d)).
  { apply List.Forall_forall. intros b Hb.
    destruct (owner_of_each_answer d Hreach b Hb)
      as (r & Hr & Hid).
    pose proof (response_ids_below_next d Hreach r Hr) as Hlt.
    fold rid in Hlt. lia. }
  intros k v.
  destruct (answers_of_spec rid (answers (snd (post_response req d))))
    as [_ Hin].
  rewrite Hin, Ha.
  rewrite <- (last_row_of_entries rid k v _ rows Hrows).
  split; intros (a & Hlast & Hv); exists a; (split; [ | exact Hv ]);
    now apply (last_row_skip rid k a (answers d) rows Hold).
Qed.

(** X18.  The password of the static variant is never empty: an unset or
    empty ADMIN_PASSWORD falls back to "admin123", any other value is
    taken as it is, and so the header "Bearer " without a password is
    never admitted. *)
Theorem static_password_never_empty (env : option string) (req : request) :
  StaticVariant.ADMIN_PASSWORD env <> "" /\
  (env = None \/ env = Some "" ->
   StaticVariant.ADMIN_PASSWORD env = "admin123") /\
  (forall p, env = Some p -> p <> "" ->
   StaticVariant.ADMIN_PASSWORD env = p) /\
  (authorization req = Some "Bearer " ->
   StaticVariant.requireAdmin (StaticVariant.ADMIN_PASSWORD env) req = false).
Proof.
  assert (Hne : StaticVariant.ADMIN_PASSWORD env <> "").
  { unfold StaticVariant.ADMIN_PASSWORD. destruct env as [p | ];
      [ | discriminate ].
    destruct (String.eqb_spec p ""); [ discriminate | assumption ]. }
  split; [ exact Hne | ].
  split; [ intros [-> | ->]; reflexivity | ].
  split.
  - intros p -> Hp. unfold StaticVariant.ADMIN_PASSWORD.
    destruct (String.eqb_spec p ""); [ contradiction | reflexivity ].
  - intros Hheader. unfold StaticVariant.requireAdmin. rewrite Hheader.
    apply String.eqb_neq. intros Heq.
    destruct (StaticVariant.ADMIN_PASSWORD env) as [ | c rest ];
      [ now apply Hne | discriminate Heq ].
Qed.

End Round_trip.

Lemma submitted_answers_read_back_witness :
  let d := SampleStates.after_submission in
  let out := @post_response Sample.runtime SampleInputs.submission d in
  @reachable Sample.runtime d /\
  name_accepted SampleInputs.submission "Ann" /\
  answers_object SampleInputs.submission SampleInputs.three_answers /\
  Forall (fun e => @ToNumber Sample.runtime (fst e) <> None)
    (Object_entries SampleInputs.three_answers) /\
  answers_of 2 (answers (snd out))
    = [(NInt 1, Some "topp"); (NInt 2, Some "flash"); (NInt 3, None)] /\
  exists responseId score,
    fst out = Json 200 (BodyResponse responseId score) /\
    forall k v,
      In (k, v) (answers_of responseId (answers (snd out)))
      <-> exists before e after,
            Object_entries SampleInputs.three_answers
            = (before ++ e :: after)%list /\
            @ToNumber Sample.runtime (fst e) = Some k /\
            safeVal (snd e) = v /\
            Forall (fun e' => @ToNumber Sample.runtime (fst e') <> Some k)
              after.
Proof.
  intros d out.
  destruct sample_submission_accepted as (Hname & Hans & Hkeys).
  split; [ exact after_submission_reachable | ].
  split; [ exact Hname | ]. split; [ exact Hans | ].
  split; [ exact Hkeys | ]. split; [ reflexivity | ].
  exact (@submitted_answers_read_back Sample.runtime SampleInputs.submission
           d "Ann" SampleInputs.three_answers after_submission_reachable
           Hname Hans Hkeys).
Defined.

Lemma static_password_never_empty_witness :
  let req := mkRequest GET_analytics (Some "Bearer ") (JObject [])
               "2024-05-01 09:00:00" "" in
  StaticVariant.ADMIN_PASSWORD (Some "") = "admin123" /\
  StaticVariant.ADMIN_PASSWORD (Some "s3cret") = "s3cret" /\
  authorization req = Some "Bearer " /\
  StaticVariant.requireAdmin (StaticVariant.ADMIN_PASSWORD (Some "")) req
  = false.
Proof.
  intros req.
  destruct (static_password_never_empty (Some "") req)
    as (_ & Hdefault & _ & Hbare).
  destruct (static_password_never_empty (Some "s3cret") req)
    as (_ & _ & Hgiven & _).
  split; [ exact (Hdefault (or_intror eq_refl)) | ].
  split; [ apply (Hgiven "s3cret" eq_refl); discriminate | ].
  split; [ reflexivity | exact (Hbare eq_refl) ].
Defined.
